(** * StaggerPoolGraph: the event accumulator and the series projector

    A shallow embedding of [StaggerPoolGraph.js] (the analyzer class
    [StaggerPoolGraph], its five event handlers and [plot]) and of the
    state, the callbacks and the tooltip of the React component
    [StaggerGraph] that draws the series; the chart's markup is not
    modelled. *)

From Stdlib Require Import ZArith List Bool Lia.
From Stdlib Require String.
Import ListNotations.
Import String.StringSyntax.
Delimit Scope string_scope with string.
Open Scope Z_scope.

(** ** JavaScript values

    The fields the analyzer reads hold numbers or are absent.  A number
    is modelled as an integer, a [Z], and [+] and [-] as the exact sum and
    difference: this is what the doubles of JavaScript compute as long as
    the operands and the result are integers of magnitude at most 2^53
    ([JS.exact]).  A statement that relies on the value of a sum or a
    difference says so with [JS.exact]; rounding beyond that range and
    fractions are outside the model.  [NaN] is there because
    [undefined + n] produces it. *)
Module JS.

Inductive value : Type :=
| Undefined
| Num (z : Z)
| NaN.

(** ToBoolean: [undefined], [0] and [NaN] are falsy. *)
Definition truthy (v : value) : bool :=
  match v with
  | Num z => negb (z =? 0)
  | Undefined | NaN => false
  end.

(** [a === b]; [NaN] is not equal to itself. *)
Definition strict_eq (a b : value) : bool :=
  match a, b with
  | Undefined, Undefined => true
  | Num x, Num y => x =? y
  | _, _ => false
  end.

(** [a !== b] *)
Definition strict_neq (a b : value) : bool := negb (strict_eq a b).

(** An integer that doubles hold exactly, with every integer between it
    and 0. *)
Definition exact (n : Z) : Prop := Z.abs n <= 2 ^ 53.

(** [a + b] on these values: [undefined] converts to [NaN].  The sum of
    two numbers is that of the doubles where it is [exact]. *)
Definition add (a b : value) : value :=
  match a, b with
  | Num x, Num y => Num (x + y)
  | _, _ => NaN
  end.

(** [a - b], likewise. *)
Definition sub (a b : value) : value :=
  match a, b with
  | Num x, Num y => Num (x - y)
  | _, _ => NaN
  end.

(** [arr[i]]: an index outside the array (in particular [-1]) reads
    [undefined], here [None]. *)
Definition index {A : Type} (arr : list A) (i : Z) : option A :=
  if i <? 0 then None else nth_error arr (Z.to_nat i).

(** [arr.length] *)
Definition length {A : Type} (arr : list A) : Z := Z.of_nat (List.length arr).

(** [arr.push(v)] *)
Definition push {A : Type} (arr : list A) (v : A) : list A := arr ++ [v].

Definition is_undefined (v : value) : bool :=
  match v with Undefined => true | _ => false end.

(** [Math.abs(a)]; [undefined] converts to [NaN]. *)
Definition abs (a : value) : value :=
  match a with
  | Num x => Num (Z.abs x)
  | Undefined | NaN => NaN
  end.

(** [a < b]: false as soon as one side is [NaN] (or [undefined], which
    converts to it). *)
Definition lt (a b : value) : bool :=
  match a, b with
  | Num x, Num y => x <? y
  | _, _ => false
  end.

End JS.

(** ** Events *)

(** Modelled from the spec: the dispatcher ([parser/core/Analyzer], not in
    this file) calls one handler per event by the event's kind; the kinds
    are the five the analyzer has a handler for, [Damage], [Heal] and
    [Death] being those directed at the tracked player, and [Other] is
    every event no handler is called for. *)
Inductive EventKind : Type :=
| StaggerAdd
| StaggerRemove
| Damage
| Heal
| Death
| Other.

(** [event.trigger.ability]: only [guid] is read. *)
Record Ability : Type := { guid : JS.value }.

(** [event.trigger]: only [ability] is read; [None] is an absent (or
    [null]) ability. *)
Record Trigger : Type := { ability : option Ability }.

(** An event object, with the properties the analyzer reads or writes.
    An absent property reads [undefined]; [trigger = None] is an absent
    trigger, on which a property access throws.  The records kept in the
    buffers are event objects too: [{...event, k: v}] copies the event and
    sets [k]. *)
Record Event : Type := {
  type : EventKind;
  timestamp : JS.value;
  amount : JS.value;
  newPooledDamage : JS.value;
  trigger : option Trigger;
  hitPoints : JS.value;
  maxHitPoints : JS.value;
  previousTimestamp : JS.value;
}.

(** [{...event, hitPoints: hp, maxHitPoints: maxHp}] *)
Definition spread_hitPoints (event : Event) (hp maxHp : JS.value) : Event :=
  {| type := type event;
     timestamp := timestamp event;
     amount := amount event;
     newPooledDamage := newPooledDamage event;
     trigger := trigger event;
     hitPoints := hp;
     maxHitPoints := maxHp;
     previousTimestamp := previousTimestamp event |}.

(** [{...event, previousTimestamp: ts}] *)
Definition spread_previousTimestamp (event : Event) (ts : JS.value) : Event :=
  {| type := type event;
     timestamp := timestamp event;
     amount := amount event;
     newPooledDamage := newPooledDamage event;
     trigger := trigger event;
     hitPoints := hitPoints event;
     maxHitPoints := maxHitPoints event;
     previousTimestamp := ts |}.

(** ** The analyzer's state *)

(** The instance fields of [StaggerPoolGraph]; [start_time] is
    [this.owner.fight.start_time], which the analyzer only reads. *)
Record StaggerPoolGraph : Type := {
  _hpEvents : list Event;
  _staggerEvents : list Event;
  _deathEvents : list Event;
  _purifyEvents : list Event;
  _lastHp : JS.value;
  _lastMaxHp : JS.value;
  start_time : JS.value;
}.

(** A freshly constructed analyzer. *)
Definition initial (fight_start : JS.value) : StaggerPoolGraph :=
  {| _hpEvents := [];
     _staggerEvents := [];
     _deathEvents := [];
     _purifyEvents := [];
     _lastHp := JS.Num 0;
     _lastMaxHp := JS.Num 0;
     start_time := fight_start |}.

Definition set_hpEvents (v : list Event) (this : StaggerPoolGraph) :=
  {| _hpEvents := v;
     _staggerEvents := _staggerEvents this;
     _deathEvents := _deathEvents this;
     _purifyEvents := _purifyEvents this;
     _lastHp := _lastHp this;
     _lastMaxHp := _lastMaxHp this;
     start_time := start_time this |}.

Definition set_staggerEvents (v : list Event) (this : StaggerPoolGraph) :=
  {| _hpEvents := _hpEvents this;
     _staggerEvents := v;
     _deathEvents := _deathEvents this;
     _purifyEvents := _purifyEvents this;
     _lastHp := _lastHp this;
     _lastMaxHp := _lastMaxHp this;
     start_time := start_time this |}.

Definition set_deathEvents (v : list Event) (this : StaggerPoolGraph) :=
  {| _hpEvents := _hpEvents this;
     _staggerEvents := _staggerEvents this;
     _deathEvents := v;
     _purifyEvents := _purifyEvents this;
     _lastHp := _lastHp this;
     _lastMaxHp := _lastMaxHp this;
     start_time := start_time this |}.

Definition set_purifyEvents (v : list Event) (this : StaggerPoolGraph) :=
  {| _hpEvents := _hpEvents this;
     _staggerEvents := _staggerEvents this;
     _deathEvents := _deathEvents this;
     _purifyEvents := v;
     _lastHp := _lastHp this;
     _lastMaxHp := _lastMaxHp this;
     start_time := start_time this |}.

Definition set_lastHp (v : JS.value) (this : StaggerPoolGraph) :=
  {| _hpEvents := _hpEvents this;
     _staggerEvents := _staggerEvents this;
     _deathEvents := _deathEvents this;
     _purifyEvents := _purifyEvents this;
     _lastHp := v;
     _lastMaxHp := _lastMaxHp this;
     start_time := start_time this |}.

Definition set_lastMaxHp (v : JS.value) (this : StaggerPoolGraph) :=
  {| _hpEvents := _hpEvents this;
     _staggerEvents := _staggerEvents this;
     _deathEvents := _deathEvents this;
     _purifyEvents := _purifyEvents this;
     _lastHp := _lastHp this;
     _lastMaxHp := v;
     start_time := start_time this |}.

(** The same analyzer in a fight that started at [v]. *)
Definition set_start_time (v : JS.value) (this : StaggerPoolGraph) :=
  {| _hpEvents := _hpEvents this;
     _staggerEvents := _staggerEvents this;
     _deathEvents := _deathEvents this;
     _purifyEvents := _purifyEvents this;
     _lastHp := _lastHp this;
     _lastMaxHp := _lastMaxHp this;
     start_time := v |}.

(** ** Methods: state threaded through, exceptions propagated

    A method is run on [this]; it completes normally with a value or
    abruptly with a thrown error, and in both cases leaves a state. *)

Inductive Error : Type := TypeError.

Inductive Completion (A : Type) : Type :=
| Normal (a : A)
| Throw (e : Error).
Arguments Normal {A} a.
Arguments Throw {A} e.

Definition M (A : Type) : Type :=
  StaggerPoolGraph -> Completion A * StaggerPoolGraph.

Definition ret {A : Type} (a : A) : M A := fun this => (Normal a, this).

Definition bind {A B : Type} (m : M A) (k : A -> M B) : M B :=
  fun this =>
    match m this with
    | (Normal a, this') => k a this'
    | (Throw e, this') => (Throw e, this')
    end.

Definition throw {A : Type} (e : Error) : M A := fun this => (Throw e, this).

Definition get : M StaggerPoolGraph := fun this => (Normal this, this).

Definition modify (f : StaggerPoolGraph -> StaggerPoolGraph) : M unit :=
  fun this => (Normal tt, f this).

(** Reading a property of a value that may be [undefined]. *)
Definition property_of {A B : Type} (obj : option A) (prop : A -> B) : M B :=
  match obj with
  | Some o => ret (prop o)
  | None => throw TypeError
  end.

Declare Scope method_scope.
Delimit Scope method_scope with method.
Notation "x <- m ;; k" := (bind m (fun x => k))
  (at level 61, m at next level, right associativity) : method_scope.
Notation "m ;; k" := (bind m (fun _ => k))
  (at level 61, right associativity) : method_scope.
Open Scope method_scope.

Definition state_of {A : Type} (r : Completion A * StaggerPoolGraph) :
  StaggerPoolGraph := snd r.

Definition completed {A : Type} (r : Completion A * StaggerPoolGraph) : bool :=
  match fst r with Normal _ => true | Throw _ => false end.

(** ** The series handed to the chart *)

Module Stagger.
Record point : Type := { x : JS.value; y : JS.value; hp : JS.value; maxHp : JS.value }.
End Stagger.

Module Purify.
Record point : Type := { x : JS.value; y : JS.value; amount : JS.value }.
End Purify.

Module Hp.
Record point : Type := { x : JS.value; y : JS.value }.
End Hp.

Module Deaths.
Record point : Type := { x : JS.value }.
End Deaths.

(** The props of [<StaggerGraph ... />]. *)
Record Props : Type := {
  startTime : JS.value;
  stagger : list Stagger.point;
  hp : list Hp.point;
  maxHp : list Hp.point;
  purifies : list Purify.point;
  deaths : list Deaths.point;
}.

(** ** The chart component [StaggerGraph]

    Its state and the callbacks [render] hands to the chart.  The chart
    library (react-vis, not part of the repository) decides when a callback
    is called; [setState] merges the fields it is given into the state. *)

Module Area.
Record t : Type := { left : JS.value; right : JS.value }.
End Area.

(** [this.state]: [hover] and [xDomain] are [null] ([None]) or an object. *)
Record GraphState : Type := {
  hover : option Stagger.point;
  xDomain : option Area.t;
  dragging : bool;
}.

(** [state = { hover: null, xDomain: null, dragging: false }] *)
Definition graph_initial : GraphState :=
  {| hover := None; xDomain := None; dragging := false |}.

(** [onMouseLeave={() => this.setState({ hover: null })}] *)
Definition onMouseLeave (s : GraphState) : GraphState :=
  {| hover := None; xDomain := xDomain s; dragging := dragging s |}.

(** [onNearestX={d => this.setState({hover: d})}] *)
Definition onNearestX (d : Stagger.point) (s : GraphState) : GraphState :=
  {| hover := Some d; xDomain := xDomain s; dragging := dragging s |}.

(** [onSeriesMouseOut={() => this.setState({hover: null})}] *)
Definition onSeriesMouseOut (s : GraphState) : GraphState :=
  {| hover := None; xDomain := xDomain s; dragging := dragging s |}.

(** [onBrushStart={() => this.setState({dragging: true})}] *)
Definition onBrushStart (s : GraphState) : GraphState :=
  {| hover := hover s; xDomain := xDomain s; dragging := true |}.

(** [onBrushEnd={area => this.setState({xDomain: area, dragging: false})}] *)
Definition onBrushEnd (area : option Area.t) (s : GraphState) : GraphState :=
  {| hover := hover s; xDomain := area; dragging := false |}.

(** [onValueClick={d => this.setState({xDomain: { left: d.x - 10000, right: d.x + 10000 }})}] *)
Definition onValueClick (d : Purify.point) (s : GraphState) : GraphState :=
  {| hover := hover s;
     xDomain := Some {| Area.left := JS.sub (Purify.x d) (JS.Num 10000);
                        Area.right := JS.add (Purify.x d) (JS.Num 10000) |};
     dragging := dragging s |}.

(** One call of a callback. *)
Inductive Interaction : Type :=
| MouseLeave
| NearestX (d : Stagger.point)
| SeriesMouseOut
| BrushStart
| BrushEnd (area : option Area.t)
| ValueClick (d : Purify.point).

Definition interact (i : Interaction) : GraphState -> GraphState :=
  match i with
  | MouseLeave => onMouseLeave
  | NearestX d => onNearestX d
  | SeriesMouseOut => onSeriesMouseOut
  | BrushStart => onBrushStart
  | BrushEnd area => onBrushEnd area
  | ValueClick d => onValueClick d
  end.

(** The callbacks called one after the other. *)
Definition interactions (l : list Interaction) (s : GraphState) : GraphState :=
  fold_left (fun s i => interact i s) l s.


(** [!this.state.dragging && this.state.hover && <Crosshair values={[this.state.hover]} ... />]:
    the point the crosshair is drawn for, if it is drawn. *)
Definition crosshair (s : GraphState) : option Stagger.point :=
  if negb (dragging s) then hover s else None.

(** A line of the crosshair's tooltip. *)
Module Entry.
Record t : Type := { title : String.string; value : String.string }.
End Entry.

(** [({x}) => Math.abs(x - v.x) < 500] *)
Definition within_500 (v : Stagger.point) (purify : Purify.point) : bool :=
  JS.lt (JS.abs (JS.sub (Purify.x purify) (Stagger.x v))) (JS.Num 500).



Definition is_brush_end (i : Interaction) : bool :=
  match i with
  | BrushEnd _ => true
  | _ => false
  end.

(** A stand-in for [formatNumber] in the examples; the theorems hold for
    any. *)
Definition example_format (v : JS.value) : String.string :=
  match v with
  | JS.Num _ => "#"%string
  | JS.Undefined | JS.NaN => "NaN"%string
  end.

(** The identifier the examples are run with (Purifying Brew's in the
    game's data); the theorems hold for any. *)
Definition example_id : Z := 119582.

Section Analyzer.

(** [SPELLS.PURIFYING_BREW.id], from [common/SPELLS]. *)
Variable PURIFYING_BREW_id : Z.

(** [on_addstagger(event)] *)
Definition on_addstagger (event : Event) : M unit :=
  this <- get ;;
  modify (set_staggerEvents
            (JS.push (_staggerEvents this)
               (spread_hitPoints event (_lastHp this) (_lastMaxHp this)))).

(** [event.trigger.ability && event.trigger.ability.guid === SPELLS.PURIFYING_BREW.id] *)
Definition is_purifying_brew (t : Trigger) : bool :=
  match ability t with
  | Some a => JS.strict_eq (guid a) (JS.Num PURIFYING_BREW_id)
  | None => false
  end.

(** [on_removestagger(event)] *)
Definition on_removestagger (event : Event) : M unit :=
  purification <- property_of (trigger event) is_purifying_brew ;;
  (if purification then
     this <- get ;;
     previous <- property_of
                   (JS.index (_staggerEvents this)
                      (JS.length (_staggerEvents this) - 1))
                   timestamp ;;
     modify (set_purifyEvents
               (JS.push (_purifyEvents this)
                  (spread_previousTimestamp event previous)))
   else ret tt) ;;
  this <- get ;;
  modify (set_staggerEvents
            (JS.push (_staggerEvents this)
               (spread_hitPoints event (_lastHp this) (_lastMaxHp this)))).

(** [on_toPlayer_death(event)] *)
Definition on_toPlayer_death (event : Event) : M unit :=
  this <- get ;;
  modify (set_deathEvents (JS.push (_deathEvents this) event)).

(** [on_toPlayer_damage(event)] *)
Definition on_toPlayer_damage (event : Event) : M unit :=
  this <- get ;;
  modify (set_hpEvents (JS.push (_hpEvents this) event)) ;;
  this <- get ;;
  modify (set_lastHp
            (if JS.truthy (hitPoints event) then hitPoints event
             else _lastHp this)) ;;
  this <- get ;;
  modify (set_lastMaxHp
            (if JS.truthy (maxHitPoints event) then maxHitPoints event
             else _lastMaxHp this)).

(** [on_toPlayer_heal(event)] *)
Definition on_toPlayer_heal (event : Event) : M unit :=
  this <- get ;;
  modify (set_hpEvents (JS.push (_hpEvents this) event)) ;;
  this <- get ;;
  modify (set_lastHp
            (if JS.truthy (hitPoints event) then hitPoints event
             else _lastHp this)) ;;
  this <- get ;;
  modify (set_lastMaxHp
            (if JS.truthy (maxHitPoints event) then maxHitPoints event
             else _lastMaxHp this)).

(** [plot()], up to the JSX it wraps the series in. *)
Definition plot : M Props :=
  this <- get ;;
  let stagger :=
    map (fun e => {| Stagger.x := timestamp e;
                     Stagger.y := newPooledDamage e;
                     Stagger.hp := hitPoints e;
                     Stagger.maxHp := maxHitPoints e |})
        (_staggerEvents this) in
  let purifies :=
    map (fun e => {| Purify.x := previousTimestamp e;
                     Purify.y := JS.add (newPooledDamage e) (amount e);
                     Purify.amount := amount e |})
        (_purifyEvents this) in
  let hp :=
    map (fun e => {| Hp.x := timestamp e; Hp.y := hitPoints e |})
        (filter (fun e => JS.strict_neq (hitPoints e) JS.Undefined)
                (_hpEvents this)) in
  let maxHp :=
    map (fun e => {| Hp.x := timestamp e; Hp.y := maxHitPoints e |})
        (filter (fun e => JS.strict_neq (maxHitPoints e) JS.Undefined)
                (_hpEvents this)) in
  let deaths :=
    map (fun e => {| Deaths.x := timestamp e |}) (_deathEvents this) in
  ret {| startTime := start_time this;
         stagger := stagger;
         hp := hp;
         maxHp := maxHp;
         purifies := purifies;
         deaths := deaths |}.

(** Modelled from the spec: the dispatcher (not in this file) feeds the
    events one at a time, in stream order, each to the handler of its
    kind; an event of another kind changes nothing. *)
Definition ingest (event : Event) : M unit :=
  match type event with
  | StaggerAdd => on_addstagger event
  | StaggerRemove => on_removestagger event
  | Damage => on_toPlayer_damage event
  | Heal => on_toPlayer_heal event
  | Death => on_toPlayer_death event
  | Other => ret tt
  end.

(** Modelled from the spec: feeding a stream; an error a handler throws
    ends the feeding. *)
Fixpoint feed (events : list Event) : M unit :=
  match events with
  | [] => ret tt
  | event :: rest => ingest event ;; feed rest
  end.

(** The states an analyzer can be in: freshly constructed, or after one
    more event was handed to it, whether its handler returned or threw
    (this covers a dispatcher that goes on after an error). *)
Inductive reachable : StaggerPoolGraph -> Prop :=
| reachable_initial : forall fight_start, reachable (initial fight_start)
| reachable_ingest : forall this event,
    reachable this -> reachable (state_of (ingest event this)).

(** ** What the stream's events are, for the statements *)

(** The trigger of [event] carries an ability whose identifier is the
    purification ability's. *)
Definition carries_purification (event : Event) : Prop :=
  exists t a,
    trigger event = Some t /\ ability t = Some a /\
    guid a = JS.Num PURIFYING_BREW_id.

(** The same as a test, on a whole event: a removal that a purification
    caused. *)
Definition is_purification_removal (event : Event) : bool :=
  match type event, trigger event with
  | StaggerRemove, Some t => is_purifying_brew t
  | _, _ => false
  end.

Definition is_stagger_event (event : Event) : bool :=
  match type event with
  | StaggerAdd | StaggerRemove => true
  | _ => false
  end.

Definition is_health_event (event : Event) : bool :=
  match type event with
  | Damage | Heal => true
  | _ => false
  end.

(** What a handler leaves behind when it returns: each buffer is the old one
    with what was pushed, in terms of the state the handler started in. *)
Record handled (event : Event) (this this' : StaggerPoolGraph) : Prop := {
  handled_stagger :
    _staggerEvents this' =
    _staggerEvents this ++
      (if is_stagger_event event
       then [spread_hitPoints event (_lastHp this) (_lastMaxHp this)]
       else []);
  handled_purify :
    (is_purification_removal event = true /\
     exists earlier previous,
       _staggerEvents this = earlier ++ [previous] /\
       _purifyEvents this' =
       _purifyEvents this ++
         [spread_previousTimestamp event (timestamp previous)]) \/
    (is_purification_removal event = false /\
     _purifyEvents this' = _purifyEvents this);
  handled_hp :
    _hpEvents this' =
    _hpEvents this ++ (if is_health_event event then [event] else []);
  handled_lastHp :
    _lastHp this' =
    if is_health_event event && JS.truthy (hitPoints event)
    then hitPoints event else _lastHp this;
  handled_lastMaxHp :
    _lastMaxHp this' =
    if is_health_event event && JS.truthy (maxHitPoints event)
    then maxHitPoints event else _lastMaxHp this;
  handled_death :
    _deathEvents this' =
    _deathEvents this ++
      (match type event with Death => [event] | _ => [] end);
}.

(** When a handler throws: only [on_removestagger] does, on an event without
    trigger or on a purification with no stagger event recorded. *)
Definition rejected (event : Event) (this : StaggerPoolGraph) : Prop :=
  type event = StaggerRemove /\
  (trigger event = None \/
   (is_purification_removal event = true /\ _staggerEvents this = [])).

(** The events of a stream that were handled before the feeding ended: all
    of them when no handler threw. *)
Fixpoint processed (events : list Event) (this : StaggerPoolGraph) : list Event :=
  match events with
  | [] => []
  | event :: rest =>
      match ingest event this with
      | (Normal _, this') => event :: processed rest this'
      | (Throw _, _) => []
      end
  end.

(** A stagger record is the event it was made from, with a health snapshot. *)
Definition snapshot_of (record event : Event) : Prop :=
  exists hp maxHp, record = spread_hitPoints event hp maxHp.

(** A purify record is the removal it was made from, with a timestamp. *)
Definition retimed_from (record event : Event) : Prop :=
  exists ts, record = spread_previousTimestamp event ts.

(** Every purify record carries the timestamp of a recorded stagger event. *)
Definition references_stagger (this : StaggerPoolGraph) (record : Event) : Prop :=
  exists s, In s (_staggerEvents this) /\ previousTimestamp record = timestamp s.

(** ** The scenario of the specification

    A stagger gain at 100, damage at 150 (80 of 100 hit points), a
    purification at 200 that removes 15 and leaves 5, death at 250. *)

Definition bare (kind : EventKind) (ts : Z) : Event :=
  {| type := kind;
     timestamp := JS.Num ts;
     amount := JS.Undefined;
     newPooledDamage := JS.Undefined;
     trigger := None;
     hitPoints := JS.Undefined;
     maxHitPoints := JS.Undefined;
     previousTimestamp := JS.Undefined |}.

Definition stagger_add_100 : Event := bare StaggerAdd 100.

Definition damage_150 : Event :=
  {| type := Damage;
     timestamp := JS.Num 150;
     amount := JS.Undefined;
     newPooledDamage := JS.Undefined;
     trigger := None;
     hitPoints := JS.Num 80;
     maxHitPoints := JS.Num 100;
     previousTimestamp := JS.Undefined |}.

Definition purify_200 : Event :=
  {| type := StaggerRemove;
     timestamp := JS.Num 200;
     amount := JS.Num 15;
     newPooledDamage := JS.Num 5;
     trigger := Some {| ability := Some {| guid := JS.Num PURIFYING_BREW_id |} |};
     hitPoints := JS.Undefined;
     maxHitPoints := JS.Undefined;
     previousTimestamp := JS.Undefined |}.

Definition death_250 : Event := bare Death 250.

(** Damage at 160 that reports no hit points left. *)
Definition damage_160_zero : Event :=
  {| type := Damage;
     timestamp := JS.Num 160;
     amount := JS.Undefined;
     newPooledDamage := JS.Undefined;
     trigger := None;
     hitPoints := JS.Num 0;
     maxHitPoints := JS.Num 100;
     previousTimestamp := JS.Undefined |}.

Definition scenario : list Event :=
  [stagger_add_100; damage_150; purify_200; death_250].

(** ** The tooltip of the chart *)

(** [formatNumber], from [common/format]. *)
Variable formatNumber : JS.value -> String.string.

(** [titleFormat={([ v ]) => ({ title: 'Stagger', value: formatNumber(v.y) })}] *)
Definition titleFormat (v : Stagger.point) : Entry.t :=
  {| Entry.title := "Stagger"%string; Entry.value := formatNumber (Stagger.y v) |}.

(** [{ title: 'Health', value: `${formatNumber(v.hp)} / ${formatNumber(v.maxHp)}` }] *)
Definition health_entry (v : Stagger.point) : Entry.t :=
  {| Entry.title := "Health"%string;
     Entry.value :=
       String.append (formatNumber (Stagger.hp v))
         (String.append " / "%string (formatNumber (Stagger.maxHp v))) |}.

(** [{ title: 'Purified', value: formatNumber(purify.amount) }] *)
Definition purified_entry (purify : Purify.point) : Entry.t :=
  {| Entry.title := "Purified"%string;
     Entry.value := formatNumber (Purify.amount purify) |}.

(** [itemsFormat], given the [purifies] prop. *)
Definition itemsFormat (purifies : list Purify.point) (v : Stagger.point) :
  list Entry.t :=
  let entries := [health_entry v] in
  match find (within_500 v) purifies with
  | Some purify => JS.push entries (purified_entry purify)
  | None => entries
  end.

Definition is_death_event (event : Event) : bool :=
  match type event with
  | Death => true
  | _ => false
  end.

(** No later health event overwrites the tracked value of [field]. *)
Definition keeps_tracked (field : Event -> JS.value) (event : Event) : Prop :=
  is_health_event event = true -> JS.truthy (field event) = false.

(** The pool point [plot] makes of a stagger record. *)
Definition pool_point (record : Event) : Stagger.point :=
  {| Stagger.x := timestamp record;
     Stagger.y := newPooledDamage record;
     Stagger.hp := hitPoints record;
     Stagger.maxHp := maxHitPoints record |}.

(** [v] is a number (not [undefined], not [NaN]). *)
Definition is_number (v : JS.value) : Prop := exists n, v = JS.Num n.

(** The marker [purify] lies less than 500 ms from the point [v]. *)
Definition near_in_time (v : Stagger.point) (purify : Purify.point) : Prop :=
  exists t p,
    Stagger.x v = JS.Num t /\ Purify.x purify = JS.Num p /\ Z.abs (p - t) < 500.

(** ** Evaluation of the handlers *)

Lemma strict_eq_Num (v : JS.value) (n : Z) :
  JS.strict_eq v (JS.Num n) = true <-> v = JS.Num n.
Proof.
  destruct v as [|z|]; simpl; split; intro H; try discriminate.
  - apply Z.eqb_eq in H. now subst.
  - injection H as ->. apply Z.eqb_refl.
Qed.

Lemma is_purifying_brew_carries (event : Event) (t : Trigger) :
  trigger event = Some t ->
  (is_purifying_brew t = true <-> carries_purification event).
Proof.
  intros Ht. unfold is_purifying_brew, carries_purification.
  split.
  - destruct (ability t) as [a|] eqn:Ha; [|discriminate].
    intros H. exists t, a. repeat split; auto. now apply strict_eq_Num.
  - intros (t' & a & Ht' & Ha & Hg).
    rewrite Ht in Ht'. injection Ht' as <-.
    rewrite Ha. now apply strict_eq_Num.
Qed.

Lemma index_last {A : Type} (arr : list A) (v : A) :
  JS.index (arr ++ [v]) (JS.length (arr ++ [v]) - 1) = Some v.
Proof.
  unfold JS.index, JS.length. rewrite length_app. simpl.
  replace (Z.of_nat (length arr + 1) - 1) with (Z.of_nat (length arr)) by lia.
  destruct (Z.of_nat (length arr) <? 0) eqn:E; [apply Z.ltb_lt in E; lia|].
  rewrite Nat2Z.id, nth_error_app2 by lia.
  now rewrite Nat.sub_diag.
Qed.

Lemma index_last_empty {A : Type} :
  JS.index (@nil A) (JS.length (@nil A) - 1) = None.
Proof. reflexivity. Qed.

Lemma empty_or_last {A : Type} (l : list A) :
  l = [] \/ exists earlier v, l = earlier ++ [v].
Proof. induction l using rev_ind; [left | right]; eauto. Qed.

Lemma on_addstagger_run (event : Event) (this : StaggerPoolGraph) :
  on_addstagger event this =
  (Normal tt,
   set_staggerEvents
     (_staggerEvents this ++
        [spread_hitPoints event (_lastHp this) (_lastMaxHp this)]) this).
Proof. reflexivity. Qed.

Lemma on_removestagger_no_trigger (event : Event) (this : StaggerPoolGraph) :
  trigger event = None ->
  on_removestagger event this = (Throw TypeError, this).
Proof.
  intros Ht. unfold on_removestagger, bind, property_of.
  now rewrite Ht.
Qed.

Lemma on_removestagger_other (event : Event) (t : Trigger)
      (this : StaggerPoolGraph) :
  trigger event = Some t ->
  is_purifying_brew t = false ->
  on_removestagger event this =
  (Normal tt,
   set_staggerEvents
     (_staggerEvents this ++
        [spread_hitPoints event (_lastHp this) (_lastMaxHp this)]) this).
Proof.
  intros Ht Hp. unfold on_removestagger, bind, property_of.
  rewrite Ht. simpl. now rewrite Hp.
Qed.

Lemma on_removestagger_purify_empty (event : Event) (t : Trigger)
      (this : StaggerPoolGraph) :
  trigger event = Some t ->
  is_purifying_brew t = true ->
  _staggerEvents this = [] ->
  on_removestagger event this = (Throw TypeError, this).
Proof.
  intros Ht Hp He. unfold on_removestagger, bind, property_of.
  rewrite Ht. simpl. rewrite Hp. simpl. now rewrite He.
Qed.

Lemma on_removestagger_purify (event : Event) (t : Trigger)
      (this : StaggerPoolGraph) (earlier : list Event) (previous : Event) :
  trigger event = Some t ->
  is_purifying_brew t = true ->
  _staggerEvents this = earlier ++ [previous] ->
  on_removestagger event this =
  (Normal tt,
   set_staggerEvents
     (_staggerEvents this ++
        [spread_hitPoints event (_lastHp this) (_lastMaxHp this)])
     (set_purifyEvents
        (_purifyEvents this ++
           [spread_previousTimestamp event (timestamp previous)]) this)).
Proof.
  intros Ht Hp He. unfold on_removestagger, bind, property_of.
  rewrite Ht. simpl. rewrite Hp. simpl.
  rewrite He, index_last. simpl. now rewrite He.
Qed.

Lemma on_toPlayer_damage_run (event : Event) (this : StaggerPoolGraph) :
  on_toPlayer_damage event this =
  (Normal tt,
   {| _hpEvents := _hpEvents this ++ [event];
      _staggerEvents := _staggerEvents this;
      _deathEvents := _deathEvents this;
      _purifyEvents := _purifyEvents this;
      _lastHp := if JS.truthy (hitPoints event) then hitPoints event
                 else _lastHp this;
      _lastMaxHp := if JS.truthy (maxHitPoints event) then maxHitPoints event
                    else _lastMaxHp this;
      start_time := start_time this |}).
Proof. reflexivity. Qed.

Lemma on_toPlayer_heal_run (event : Event) (this : StaggerPoolGraph) :
  on_toPlayer_heal event this = on_toPlayer_damage event this.
Proof. reflexivity. Qed.

Lemma on_toPlayer_death_run (event : Event) (this : StaggerPoolGraph) :
  on_toPlayer_death event this =
  (Normal tt, set_deathEvents (_deathEvents this ++ [event]) this).
Proof. reflexivity. Qed.

Lemma plot_run (this : StaggerPoolGraph) :
  exists props, plot this = (Normal props, this).
Proof. eexists. reflexivity. Qed.

(** ** One event *)

Lemma ingest_cases (event : Event) (this : StaggerPoolGraph) :
  (ingest event this = (Throw TypeError, this) /\ rejected event this) \/
  (exists this', ingest event this = (Normal tt, this') /\
                 handled event this this').
Proof.
  unfold ingest, rejected, is_purification_removal.
  destruct (type event) eqn:Hty.
  - right. eexists. split; [apply on_addstagger_run|].
    constructor; unfold is_purification_removal, is_stagger_event,
      is_health_event; rewrite Hty; simpl; auto using app_nil_r.
  - destruct (trigger event) as [t|] eqn:Ht.
    + destruct (is_purifying_brew t) eqn:Hp.
      * destruct (empty_or_last (_staggerEvents this))
          as [He | (earlier & previous & He)].
        -- left. split; [eapply on_removestagger_purify_empty; eassumption|auto].
        -- right. eexists. split; [eapply on_removestagger_purify; eassumption|].
           constructor; unfold is_purification_removal, is_stagger_event,
             is_health_event; rewrite Hty, ?Ht; simpl; auto using app_nil_r.
           left. split; [assumption|]. now exists earlier, previous.
      * right. eexists. split; [eapply on_removestagger_other; eassumption|].
        constructor; unfold is_purification_removal, is_stagger_event,
          is_health_event; rewrite Hty, ?Ht; simpl; auto using app_nil_r.
    + left. split; [now apply on_removestagger_no_trigger|auto].
  - right. eexists. split; [apply on_toPlayer_damage_run|].
    constructor; unfold is_purification_removal, is_stagger_event,
      is_health_event; rewrite Hty; simpl; auto using app_nil_r.
  - right. eexists. split; [apply on_toPlayer_damage_run|].
    constructor; unfold is_purification_removal, is_stagger_event,
      is_health_event; rewrite Hty; simpl; auto using app_nil_r.
  - right. eexists. split; [apply on_toPlayer_death_run|].
    constructor; unfold is_purification_removal, is_stagger_event,
      is_health_event; rewrite Hty; simpl; auto using app_nil_r.
  - right. eexists. split; [reflexivity|].
    constructor; unfold is_purification_removal, is_stagger_event,
      is_health_event; rewrite Hty; simpl; auto using app_nil_r.
Qed.

(** ** A stream of events *)

Lemma feed_cons (event : Event) (rest : list Event) (this : StaggerPoolGraph) :
  feed (event :: rest) this =
  match ingest event this with
  | (Normal _, this') => feed rest this'
  | (Throw e, this') => (Throw e, this')
  end.
Proof. reflexivity. Qed.

Lemma feed_app (before after : list Event) (this : StaggerPoolGraph) :
  feed (before ++ after) this =
  match feed before this with
  | (Normal _, this') => feed after this'
  | (Throw e, this') => (Throw e, this')
  end.
Proof.
  revert this. induction before as [|event before IH]; intros this.
  - reflexivity.
  - simpl app. rewrite !feed_cons.
    destruct (ingest event this) as [[[]|e] this']; [apply IH|reflexivity].
Qed.

Lemma feed_reachable (events : list Event) (this : StaggerPoolGraph) :
  reachable this -> reachable (state_of (feed events this)).
Proof.
  revert this. induction events as [|event rest IH]; intros this Hr.
  - exact Hr.
  - rewrite feed_cons.
    pose proof (reachable_ingest this event Hr) as Hstep.
    destruct (ingest event this) as [[[]|e] this']; simpl in Hstep.
    + now apply IH.
    + exact Hstep.
Qed.

Lemma processed_prefix (events : list Event) (this : StaggerPoolGraph) :
  exists rest, events = processed events this ++ rest.
Proof.
  revert this. induction events as [|event rest IH]; intros this.
  - now exists [].
  - simpl. destruct (ingest event this) as [[[]|e] this'].
    + destruct (IH this') as (rest' & E). exists rest'. simpl. now f_equal.
    + now exists (event :: rest).
Qed.

Lemma processed_completed (events : list Event) (this : StaggerPoolGraph) :
  completed (feed events this) = true -> processed events this = events.
Proof.
  revert this. induction events as [|event rest IH]; intros this.
  - reflexivity.
  - rewrite feed_cons. simpl.
    destruct (ingest event this) as [[[]|e] this'].
    + intros H. f_equal. now apply IH.
    + discriminate.
Qed.

Lemma feed_buffers (events : list Event) (this : StaggerPoolGraph) :
  exists added_stagger added_purify,
    _staggerEvents (state_of (feed events this)) =
      _staggerEvents this ++ added_stagger /\
    Forall2 snapshot_of added_stagger
      (filter is_stagger_event (processed events this)) /\
    _purifyEvents (state_of (feed events this)) =
      _purifyEvents this ++ added_purify /\
    Forall2 retimed_from added_purify
      (filter is_purification_removal (processed events this)) /\
    _hpEvents (state_of (feed events this)) =
      _hpEvents this ++ filter is_health_event (processed events this).
Proof.
  revert this. induction events as [|event rest IH]; intros this.
  - exists [], []. simpl. rewrite !app_nil_r. auto.
  - rewrite feed_cons. simpl processed.
    destruct (ingest_cases event this) as [[E _] | (this' & E & H)]; rewrite E.
    + exists [], []. simpl. rewrite !app_nil_r. auto.
    + destruct (IH this') as (ss & ps & Hs & Fs & Hp & Fp & Hh).
      destruct H as [Ks Kp Kh _ _ _].
      rewrite Hs, Hp, Hh, Ks, Kh. simpl filter.
      exists ((if is_stagger_event event
               then [spread_hitPoints event (_lastHp this) (_lastMaxHp this)]
               else []) ++ ss).
      destruct Kp as [(Kb & earlier & previous & _ & Kp) | (Kb & Kp)];
        rewrite Kp, Kb.
      * exists (spread_previousTimestamp event (timestamp previous) :: ps).
        rewrite <- !app_assoc. simpl.
        repeat split; auto.
        -- destruct (is_stagger_event event); simpl; auto.
           constructor; auto. red; eauto.
        -- constructor; auto. red; eauto.
        -- destruct (is_health_event event); reflexivity.
      * exists ps. rewrite <- !app_assoc.
        repeat split; auto.
        -- destruct (is_stagger_event event); simpl; auto.
           constructor; auto. red; eauto.
        -- destruct (is_health_event event); reflexivity.
Qed.

Lemma feed_stagger_grows (events : list Event) (this : StaggerPoolGraph) :
  exists added,
    _staggerEvents (state_of (feed events this)) = _staggerEvents this ++ added.
Proof.
  destruct (feed_buffers events this) as (ss & _ & Hs & _). eauto.
Qed.

Lemma ingest_stagger_grows (event : Event) (this : StaggerPoolGraph) :
  exists added,
    _staggerEvents (state_of (ingest event this)) = _staggerEvents this ++ added.
Proof.
  destruct (ingest_cases event this) as [[E _] | (this' & E & H)]; rewrite E.
  - exists []. simpl. now rewrite app_nil_r.
  - destruct H as [Ks _ _ _ _ _]. simpl. eauto.
Qed.

(** Only a stagger removal can make a handler throw. *)
Lemma feed_completes (events : list Event) (this : StaggerPoolGraph) :
  Forall (fun event => type event <> StaggerRemove) events ->
  fst (feed events this) = Normal tt.
Proof.
  revert this. induction events as [|event rest IH]; intros this Hall.
  - reflexivity.
  - inversion Hall as [|? ? Hne Hrest]; subst.
    rewrite feed_cons.
    destruct (ingest_cases event this) as [[_ [Hty _]] | (this' & E & _)].
    + contradiction.
    + rewrite E. now apply IH.
Qed.

Lemma reachable_purify_references (this : StaggerPoolGraph) :
  reachable this -> Forall (references_stagger this) (_purifyEvents this).
Proof.
  induction 1 as [fight_start | this event Hr IH].
  - constructor.
  - destruct (ingest_cases event this) as [[E _] | (this' & E & H)]; rewrite E;
      simpl; [exact IH|].
    destruct H as [Ks Kp _ _ _ _].
    assert (Hold : Forall (references_stagger this') (_purifyEvents this)).
    { eapply Forall_impl; [|exact IH].
      intros p (s & Hin & Hts). exists s. split; [|exact Hts].
      rewrite Ks. apply in_or_app. now left. }
    destruct Kp as [(_ & earlier & previous & He & Kp) | (_ & Kp)]; rewrite Kp.
    + apply Forall_app. split; [exact Hold|].
      constructor; [|constructor].
      exists previous. split; [|reflexivity].
      rewrite Ks, He. apply in_or_app. left. apply in_or_app. right. now left.
    + exact Hold.
Qed.

Lemma purify_200_carries : carries_purification purify_200.
Proof.
  unfold carries_purification, purify_200. simpl.
  do 2 eexists. split; [reflexivity|]. split; reflexivity.
Qed.

(** The scenario of the specification gives the series the specification
    lists. *)
Example scenario_series :
  plot (state_of (feed scenario (initial (JS.Num 0)))) =
  (Normal
     {| startTime := JS.Num 0;
        stagger :=
          [ {| Stagger.x := JS.Num 100; Stagger.y := JS.Undefined;
               Stagger.hp := JS.Num 0; Stagger.maxHp := JS.Num 0 |};
            {| Stagger.x := JS.Num 200; Stagger.y := JS.Num 5;
               Stagger.hp := JS.Num 80; Stagger.maxHp := JS.Num 100 |} ];
        hp := [ {| Hp.x := JS.Num 150; Hp.y := JS.Num 80 |} ];
        maxHp := [ {| Hp.x := JS.Num 150; Hp.y := JS.Num 100 |} ];
        purifies :=
          [ {| Purify.x := JS.Num 100; Purify.y := JS.Num 20;
               Purify.amount := JS.Num 15 |} ];
        deaths := [ {| Deaths.x := JS.Num 250 |} ] |},
   state_of (feed scenario (initial (JS.Num 0)))).
Proof.
  cbv -[Z.eqb]. rewrite Z.eqb_refl. reflexivity.
Qed.

(** ** The purification record *)

(** C1: a stagger removal whose trigger carries the purification ability,
    handled while [_staggerEvents] is not empty, pushes exactly one purify
    record, and does so before it pushes the removal on [_staggerEvents]:
    the record's [previousTimestamp], which is the [x] of the purify marker
    that [plot] makes of it, is the timestamp of the last stagger record
    that was there when the handler started, whatever the timestamp of the
    removal. *)
Theorem purify_recorded_at_previous_timestamp
    (this : StaggerPoolGraph) (event : Event)
    (earlier : list Event) (previous : Event) :
  type event = StaggerRemove ->
  carries_purification event ->
  _staggerEvents this = earlier ++ [previous] ->
  let record := spread_previousTimestamp event (timestamp previous) in
  let removal := spread_hitPoints event (_lastHp this) (_lastMaxHp this) in
  let recorded := set_purifyEvents (JS.push (_purifyEvents this) record) this in
  let this' := state_of (ingest event this) in
  ingest event this =
    (Normal tt,
     set_staggerEvents (JS.push (_staggerEvents recorded) removal) recorded) /\
  _purifyEvents this' = _purifyEvents this ++ [record] /\
  _staggerEvents this' = earlier ++ [previous; removal] /\
  previousTimestamp record = timestamp previous /\
  exists props props',
    plot this = (Normal props, this) /\
    plot this' = (Normal props', this') /\
    purifies props' =
      purifies props ++
        [ {| Purify.x := timestamp previous;
             Purify.y := JS.add (newPooledDamage event) (amount event);
             Purify.amount := amount event |} ].
Proof.
  intros Hty Hc He record removal recorded this'.
  destruct Hc as (t & a & Ht & Ha & Hg).
  assert (Hp : is_purifying_brew t = true).
  { apply (is_purifying_brew_carries event t Ht). now exists t, a. }
  assert (E : ingest event this =
              (Normal tt,
               set_staggerEvents (JS.push (_staggerEvents recorded) removal)
                 recorded)).
  { unfold ingest. rewrite Hty.
    rewrite (on_removestagger_purify event t this earlier previous Ht Hp He).
    reflexivity. }
  subst this'. rewrite E. simpl.
  repeat split.
  - unfold JS.push. rewrite He, <- app_assoc. reflexivity.
  - do 2 eexists. split; [reflexivity|]. split; [reflexivity|].
    simpl. unfold JS.push. rewrite map_app. reflexivity.
Qed.

(** C2: the [y] of every purify marker is the [newPooledDamage] of the
    removal it was made from plus that removal's [amount], marker by marker
    in the order of the stream; where both are integers that doubles hold
    exactly, and their sum is too, taking the purified amount off the
    marker's [y] gives back the level recorded after the purification. *)
Theorem purify_marker_adds_amount_back
    (events : list Event) (fight_start : JS.value) :
  let this := state_of (feed events (initial fight_start)) in
  exists props,
    plot this = (Normal props, this) /\
    Forall2
      (fun marker record =>
         Purify.y marker = JS.add (newPooledDamage record) (amount record) /\
         Purify.amount marker = amount record)
      (purifies props) (_purifyEvents this) /\
    Forall2
      (fun marker removal =>
         Purify.y marker = JS.add (newPooledDamage removal) (amount removal) /\
         Purify.amount marker = amount removal /\
         forall level purified,
           newPooledDamage removal = JS.Num level ->
           amount removal = JS.Num purified ->
           JS.exact level -> JS.exact purified ->
           JS.exact (level + purified) ->
           JS.sub (Purify.y marker) (Purify.amount marker) =
           newPooledDamage removal)
      (purifies props)
      (filter is_purification_removal
         (processed events (initial fight_start))).
Proof.
  intros this. eexists. split; [reflexivity|]. simpl.
  split.
  - induction (_purifyEvents this); simpl; constructor; auto.
  - destruct (feed_buffers events (initial fight_start))
      as (ss & ps & _ & _ & Hp & Fp & _).
    fold this in Hp. rewrite Hp. simpl. clear Hp.
    induction Fp as [|record removal ps removals (ts & ->) _ IH]; simpl;
      constructor; [|exact IH].
    split; [reflexivity|]. split; [reflexivity|].
    intros level purified Hl Ha _ _ _.
    rewrite Hl, Ha. simpl. f_equal. lia.
Qed.

(** C3: a purification handled while [_staggerEvents] is empty records no
    purify: the handler throws on reading the last stagger record and
    leaves every buffer as it was.  So, in every state the analyzer can
    reach, each purify record's [previousTimestamp] is the timestamp of a
    record in [_staggerEvents], and what a handler pushes on [_purifyEvents]
    refers to a record that was in [_staggerEvents] when the handler
    started. *)
Theorem purify_needs_recorded_stagger
    (this : StaggerPoolGraph) (event : Event) :
  reachable this ->
  type event = StaggerRemove ->
  carries_purification event ->
  (_staggerEvents this = [] ->
   ingest event this = (Throw TypeError, this) /\
   _purifyEvents (state_of (ingest event this)) = _purifyEvents this) /\
  Forall (references_stagger this) (_purifyEvents this) /\
  exists added,
    _purifyEvents (state_of (ingest event this)) = _purifyEvents this ++ added /\
    Forall (references_stagger this) added /\
    Forall (references_stagger (state_of (ingest event this)))
      (_purifyEvents (state_of (ingest event this))).
Proof.
  intros Hr Hty (t & a & Ht & Ha & Hg).
  assert (Hp : is_purifying_brew t = true).
  { apply (is_purifying_brew_carries event t Ht). now exists t, a. }
  split; [|split].
  - intros He. unfold ingest. rewrite Hty.
    rewrite (on_removestagger_purify_empty event t this Ht Hp He). auto.
  - now apply reachable_purify_references.
  - pose proof (reachable_purify_references _ (reachable_ingest this event Hr))
      as Hnext.
    destruct (ingest_cases event this) as [[E _] | (this' & E & H)];
      rewrite E in *; simpl in *.
    + exists []. rewrite app_nil_r. auto.
    + destruct H as [_ Kp _ _ _ _].
      destruct Kp as [(_ & earlier' & previous & He & Kp) | (_ & Kp)].
      * exists [spread_previousTimestamp event (timestamp previous)].
        repeat split; auto.
        constructor; [|constructor].
        exists previous. split; [|reflexivity].
        rewrite He. apply in_or_app. right. now left.
      * exists []. rewrite app_nil_r. auto.
Qed.

(** ** The stagger buffer *)

(** C4: [_staggerEvents] only grows at its end, by one record per stagger
    event handled and in the order of the stream; the record made of an
    event has the event's own [timestamp] and [newPooledDamage], and its
    [hitPoints] and [maxHitPoints] are the values [_lastHp] and [_lastMaxHp]
    had when the event was handed over; it is still there, unchanged, after
    the rest of the stream. *)
Theorem stagger_records_snapshot_in_stream_order
    (events : list Event) (this : StaggerPoolGraph) :
  (exists added,
     _staggerEvents (state_of (feed events this)) =
       _staggerEvents this ++ added /\
     Forall2 snapshot_of added
       (filter is_stagger_event (processed events this))) /\
  (forall before event after,
     events = before ++ event :: after ->
     is_stagger_event event = true ->
     completed (feed (before ++ [event]) this) = true ->
     let mid := state_of (feed before this) in
     exists record later,
       _staggerEvents (state_of (feed events this)) =
         _staggerEvents mid ++ record :: later /\
       record = spread_hitPoints event (_lastHp mid) (_lastMaxHp mid) /\
       hitPoints record = _lastHp mid /\
       maxHitPoints record = _lastMaxHp mid /\
       timestamp record = timestamp event /\
       newPooledDamage record = newPooledDamage event).
Proof.
  split.
  - destruct (feed_buffers events this) as (ss & ps & Hs & Fs & _). eauto.
  - intros before event after -> Hk Hdone mid. subst mid.
    rewrite feed_app in Hdone. rewrite feed_app.
    destruct (feed before this) as [[[]|e] mid]; [|discriminate].
    rewrite feed_cons in Hdone. rewrite feed_cons.
    destruct (ingest_cases event mid) as [[E _] | (this' & E & H)];
      rewrite E in *; [discriminate|].
    destruct H as [Ks _ _ _ _ _]. rewrite Hk in Ks.
    destruct (feed_stagger_grows after this') as (later & Hl).
    exists (spread_hitPoints event (_lastHp mid) (_lastMaxHp mid)), later.
    rewrite Hl, Ks, <- app_assoc. repeat split.
Qed.

(** ** The tracked health *)

(** [v ? v : old] *)
Lemma truthy_update (v old : JS.value) :
  (forall n, n <> 0 -> v = JS.Num n ->
   (if JS.truthy v then v else old) = JS.Num n) /\
  (v = JS.Undefined \/ v = JS.Num 0 ->
   (if JS.truthy v then v else old) = old) /\
  ((if JS.truthy v then v else old) <> old ->
   exists n, n <> 0 /\ v = JS.Num n /\
             (if JS.truthy v then v else old) = JS.Num n).
Proof.
  destruct v as [|z|]; simpl.
  - split; [discriminate|]. split; [reflexivity|]. intros H. now elim H.
  - destruct (Z.eqb_spec z 0) as [->|Hz]; simpl.
    + split; [intros n Hn [= <-]; now elim Hn|].
      split; [reflexivity|]. intros H. now elim H.
    + split; [auto|]. split; [intros [H|[= H]]; [discriminate|contradiction]|].
      intros _. now exists z.
  - split; [discriminate|]. split; [reflexivity|]. intros H. now elim H.
Qed.

(** C5: a damage or heal event sets [_lastHp] to its [hitPoints] when that
    is a number other than zero, and leaves [_lastHp] as it is when the
    field is absent or zero; [_lastHp] changes in no other way.  The same
    holds of [_lastMaxHp] and [maxHitPoints]. *)
Theorem last_health_follows_truthy_fields
    (this : StaggerPoolGraph) (event : Event) :
  type event = Damage \/ type event = Heal ->
  let this' := state_of (ingest event this) in
  fst (ingest event this) = Normal tt /\
  ((forall n, n <> 0 -> hitPoints event = JS.Num n -> _lastHp this' = JS.Num n) /\
   (hitPoints event = JS.Undefined \/ hitPoints event = JS.Num 0 ->
    _lastHp this' = _lastHp this) /\
   (_lastHp this' <> _lastHp this ->
    exists n, n <> 0 /\ hitPoints event = JS.Num n /\ _lastHp this' = JS.Num n)) /\
  ((forall n, n <> 0 -> maxHitPoints event = JS.Num n ->
    _lastMaxHp this' = JS.Num n) /\
   (maxHitPoints event = JS.Undefined \/ maxHitPoints event = JS.Num 0 ->
    _lastMaxHp this' = _lastMaxHp this) /\
   (_lastMaxHp this' <> _lastMaxHp this ->
    exists n, n <> 0 /\ maxHitPoints event = JS.Num n /\
              _lastMaxHp this' = JS.Num n)).
Proof.
  intros Hty this'.
  assert (E : ingest event this = on_toPlayer_damage event this).
  { unfold ingest. destruct Hty as [-> | ->]; reflexivity. }
  subst this'. rewrite E, on_toPlayer_damage_run. simpl.
  split; [reflexivity|]. split; apply truthy_update.
Qed.

(** ** Stagger removals *)

Lemma not_own_extension {A : Type} (l : list A) (v : A) : l <> l ++ [v].
Proof.
  intros H. apply (f_equal (@length A)) in H.
  rewrite length_app in H. simpl in H. lia.
Qed.

(** C6, amended: a stagger removal that has a trigger, and that is not a
    purification arriving while [_staggerEvents] is empty, is handled
    without error and pushes exactly one record on [_staggerEvents], the
    removal with the health snapshot, so that [plot] then returns the pool
    series with one more point at its end, the removal's; it pushes a
    record on [_purifyEvents] if and only if its trigger carries the
    purification ability, and then exactly one, so that [plot] returns one
    more purify marker in that case and the same markers otherwise. *)
Theorem removal_recorded_purify_by_ability
    (this : StaggerPoolGraph) (event : Event) (t : Trigger) :
  type event = StaggerRemove ->
  trigger event = Some t ->
  (carries_purification event -> _staggerEvents this <> []) ->
  let this' := state_of (ingest event this) in
  fst (ingest event this) = Normal tt /\
  _staggerEvents this' =
    _staggerEvents this ++
      [spread_hitPoints event (_lastHp this) (_lastMaxHp this)] /\
  ((exists record, _purifyEvents this' = _purifyEvents this ++ [record]) <->
   carries_purification event) /\
  (~ carries_purification event -> _purifyEvents this' = _purifyEvents this) /\
  exists props props',
    plot this = (Normal props, this) /\
    plot this' = (Normal props', this') /\
    stagger props' =
      stagger props ++
        [ {| Stagger.x := timestamp event;
             Stagger.y := newPooledDamage event;
             Stagger.hp := _lastHp this;
             Stagger.maxHp := _lastMaxHp this |} ] /\
    ((exists marker, purifies props' = purifies props ++ [marker]) <->
     carries_purification event) /\
    (~ carries_purification event -> purifies props' = purifies props).
Proof.
  intros Hty Ht Hne this'.
  pose proof (is_purifying_brew_carries event t Ht) as Hc.
  assert (Hk : is_purification_removal event = is_purifying_brew t).
  { unfold is_purification_removal. now rewrite Hty, Ht. }
  subst this'.
  destruct (ingest_cases event this) as [[E [_ R]] | (this' & E & H)].
  - exfalso. destruct R as [R | [R He]]; [congruence|].
    rewrite Hk in R. apply Hne; [now apply Hc | exact He].
  - rewrite E. simpl. destruct H as [Ks Kp _ _ _ _].
    unfold is_stagger_event in Ks. rewrite Hty in Ks.
    rewrite Hk in Kp.
    assert (Hd : (carries_purification event /\
                  exists record,
                    _purifyEvents this' = _purifyEvents this ++ [record]) \/
                 (~ carries_purification event /\
                  _purifyEvents this' = _purifyEvents this)).
    { destruct Kp as [(Kb & earlier & previous & _ & Kp) | (Kb & Kp)].
      - left. split; [now apply Hc | eauto].
      - right. split; [|exact Kp].
        intros Hcarries. apply Hc in Hcarries. congruence. }
    split; [reflexivity|]. split; [exact Ks|].
    split; [|split].
    + destruct Hd as [[Hy Hr] | [Hn Hr]].
      * split; auto.
      * split; [|intros Hy; now elim Hn].
        intros (record & Hx). rewrite Hr in Hx.
        now apply not_own_extension in Hx.
    + intros Hn. destruct Hd as [[Hy _] | [_ Hr]]; [now elim Hn | exact Hr].
    + do 2 eexists. split; [reflexivity|]. split; [reflexivity|]. simpl.
      split; [rewrite Ks, map_app; reflexivity|].
      destruct Hd as [[Hy (record & Hr)] | [Hn Hr]]; rewrite Hr.
      * split; [|intros Hn; now elim Hn].
        split; [auto|]. intros _. rewrite map_app. simpl. eauto.
      * split; [|auto].
        split; [|intros Hy; now elim Hn].
        intros (marker & Hx). now apply not_own_extension in Hx.
Qed.

(** ** The projected series *)

Lemma strict_neq_Undefined (v : JS.value) :
  JS.strict_neq v JS.Undefined = negb (JS.is_undefined v).
Proof. now destruct v. Qed.

Lemma filter_complement_length {A : Type} (f : A -> bool) (l : list A) :
  (length (filter (fun a => negb (f a)) l) + length (filter f l) = length l)%nat.
Proof.
  induction l as [|a l IH]; simpl; [reflexivity|].
  destruct (f a); simpl; lia.
Qed.

(** C7: the health series is made of the records of [_hpEvents] whose
    [hitPoints] is not [undefined], each as [{x: timestamp, y: hitPoints}]
    and in the order of the buffer; the max-health series likewise with
    [maxHitPoints].  The points of a series and the records left out for the
    missing field add up to the length of [_hpEvents]. *)
Theorem health_series_keep_defined_fields (this : StaggerPoolGraph) :
  exists props,
    plot this = (Normal props, this) /\
    hp props =
      map (fun e => {| Hp.x := timestamp e; Hp.y := hitPoints e |})
        (filter (fun e => negb (JS.is_undefined (hitPoints e)))
           (_hpEvents this)) /\
    maxHp props =
      map (fun e => {| Hp.x := timestamp e; Hp.y := maxHitPoints e |})
        (filter (fun e => negb (JS.is_undefined (maxHitPoints e)))
           (_hpEvents this)) /\
    (length (hp props) +
     length (filter (fun e => JS.is_undefined (hitPoints e)) (_hpEvents this)) =
     length (_hpEvents this))%nat /\
    (length (maxHp props) +
     length (filter (fun e => JS.is_undefined (maxHitPoints e)) (_hpEvents this)) =
     length (_hpEvents this))%nat /\
    Forall (fun point => Hp.y point <> JS.Undefined) (hp props) /\
    Forall (fun point => Hp.y point <> JS.Undefined) (maxHp props).
Proof.
  eexists. split; [reflexivity|]. simpl.
  assert (Eh : forall l,
             filter (fun e => JS.strict_neq (hitPoints e) JS.Undefined) l =
             filter (fun e => negb (JS.is_undefined (hitPoints e))) l).
  { intros l. apply filter_ext. intros e. apply strict_neq_Undefined. }
  assert (Em : forall l,
             filter (fun e => JS.strict_neq (maxHitPoints e) JS.Undefined) l =
             filter (fun e => negb (JS.is_undefined (maxHitPoints e))) l).
  { intros l. apply filter_ext. intros e. apply strict_neq_Undefined. }
  rewrite Eh, Em, !length_map.
  repeat split.
  - apply (filter_complement_length (fun e => JS.is_undefined (hitPoints e))).
  - apply (filter_complement_length (fun e => JS.is_undefined (maxHitPoints e))).
  - apply Forall_map, Forall_forall. intros e He.
    apply filter_In in He. destruct He as [_ He]. simpl.
    now destruct (hitPoints e).
  - apply Forall_map, Forall_forall. intros e He.
    apply filter_In in He. destruct He as [_ He]. simpl.
    now destruct (maxHitPoints e).
Qed.

Lemma ingest_start_time (v : JS.value) (event : Event) (this : StaggerPoolGraph) :
  ingest event (set_start_time v this) =
  (fst (ingest event this), set_start_time v (state_of (ingest event this))).
Proof.
  unfold ingest. destruct (type event); try reflexivity.
  unfold on_removestagger, bind, property_of.
  destruct (trigger event) as [t|]; [|reflexivity]. simpl.
  destruct (is_purifying_brew t); [|reflexivity]. simpl.
  destruct (JS.index (_staggerEvents this) (JS.length (_staggerEvents this) - 1));
    reflexivity.
Qed.

Lemma feed_start_time (v : JS.value) (events : list Event)
      (this : StaggerPoolGraph) :
  feed events (set_start_time v this) =
  (fst (feed events this), set_start_time v (state_of (feed events this))).
Proof.
  revert this. induction events as [|event rest IH]; intros this.
  - reflexivity.
  - rewrite !feed_cons, ingest_start_time.
    destruct (ingest event this) as [[[]|e] this']; simpl; [apply IH|reflexivity].
Qed.

Lemma ingest_keeps_start_time (event : Event) (this : StaggerPoolGraph) :
  start_time (state_of (ingest event this)) = start_time this.
Proof.
  unfold ingest. destruct (type event); try reflexivity.
  unfold on_removestagger, bind, property_of.
  destruct (trigger event) as [t|]; [|reflexivity]. simpl.
  destruct (is_purifying_brew t); [|reflexivity]. simpl.
  destruct (JS.index (_staggerEvents this) (JS.length (_staggerEvents this) - 1));
    reflexivity.
Qed.

Lemma feed_keeps_start_time (events : list Event) (this : StaggerPoolGraph) :
  start_time (state_of (feed events this)) = start_time this.
Proof.
  revert this. induction events as [|event rest IH]; intros this.
  - reflexivity.
  - rewrite feed_cons.
    pose proof (ingest_keeps_start_time event this) as K.
    destruct (ingest event this) as [[[]|e] this']; simpl in K.
    + now rewrite IH.
    + exact K.
Qed.

(** C8: [plot] returns its series and leaves the analyzer as it was, so a
    second call returns the same series; and two fresh analyzers that were
    fed the same stream plot the same five series, whatever the start
    times of their fights, which is all the two props differ in. *)
Theorem plot_is_pure_and_deterministic
    (this : StaggerPoolGraph) (events : list Event) (start1 start2 : JS.value) :
  (exists props,
     plot this = (Normal props, this) /\
     (first <- plot ;; second <- plot ;; ret (first, second)) this =
       (Normal (props, props), this)) /\
  let one := state_of (feed events (initial start1)) in
  let other := state_of (feed events (initial start2)) in
  exists props1 props2,
    plot one = (Normal props1, one) /\
    plot other = (Normal props2, other) /\
    stagger props1 = stagger props2 /\
    hp props1 = hp props2 /\
    maxHp props1 = maxHp props2 /\
    purifies props1 = purifies props2 /\
    deaths props1 = deaths props2 /\
    startTime props1 = start1 /\
    startTime props2 = start2.
Proof.
  split.
  - eexists. split; reflexivity.
  - intros one other.
    assert (E : other = set_start_time start2 one).
    { subst one other.
      change (initial start2) with (set_start_time start2 (initial start1)).
      now rewrite feed_start_time. }
    do 2 eexists. split; [reflexivity|]. split; [reflexivity|].
    rewrite E. simpl. repeat split.
    subst one. now rewrite feed_keeps_start_time.
Qed.

Lemma feed_without_stagger (events : list Event) (this : StaggerPoolGraph) :
  Forall (fun event => is_stagger_event event = false) events ->
  fst (feed events this) = Normal tt /\
  _staggerEvents (state_of (feed events this)) = _staggerEvents this /\
  _purifyEvents (state_of (feed events this)) = _purifyEvents this.
Proof.
  revert this. induction events as [|event rest IH]; intros this Hall.
  - auto.
  - inversion Hall as [|? ? Hk Hrest]; subst.
    rewrite feed_cons.
    destruct (ingest_cases event this) as [[_ [Hty _]] | (this' & E & H)].
    + unfold is_stagger_event in Hk. rewrite Hty in Hk. discriminate.
    + rewrite E. destruct (IH this' Hrest) as (Hc & Hs & Hp).
      destruct H as [Ks Kp _ _ _ _]. rewrite Hk, app_nil_r in Ks.
      split; [exact Hc|]. split; [congruence|].
      destruct Kp as [(Kb & _) | (_ & Kp)]; [|congruence].
      unfold is_purification_removal in Kb. unfold is_stagger_event in Hk.
      destruct (type event); discriminate.
Qed.

(** C9: a stream without stagger gains and removals (so also one of damage,
    heal and death events only) is fed to a fresh analyzer without error,
    and the pool series and the purify markers plotted afterwards are
    empty. *)
Theorem no_stagger_events_no_pool_series
    (events : list Event) (fight_start : JS.value) :
  Forall (fun event => type event <> StaggerAdd /\ type event <> StaggerRemove)
    events ->
  let this := state_of (feed events (initial fight_start)) in
  fst (feed events (initial fight_start)) = Normal tt /\
  exists props,
    plot this = (Normal props, this) /\
    stagger props = [] /\
    purifies props = [].
Proof.
  intros Hall this.
  assert (Hk : Forall (fun event => is_stagger_event event = false) events).
  { eapply Forall_impl; [|exact Hall].
    intros event [Ha Hr]. unfold is_stagger_event.
    destruct (type event); congruence. }
  destruct (feed_without_stagger events (initial fight_start) Hk)
    as (Hc & Hs & Hp).
  split; [exact Hc|].
  eexists. split; [reflexivity|]. simpl.
  subst this. now rewrite Hs, Hp.
Qed.

(** C10: a damage or heal event whose [hitPoints] is 0 adds the point
    [{x: timestamp, y: 0}] to the health series and leaves [_lastHp] as it
    was; the record of a stagger gain that follows carries that older
    [_lastHp], which differs from the [y] of the last health point as soon
    as [_lastHp] is not 0. *)
Theorem zero_health_plotted_not_tracked
    (this : StaggerPoolGraph) (event gain : Event) :
  type event = Damage \/ type event = Heal ->
  hitPoints event = JS.Num 0 ->
  type gain = StaggerAdd ->
  let this' := state_of (ingest event this) in
  let this'' := state_of (ingest gain this') in
  _lastHp this' = _lastHp this /\
  exists props props' props'',
    plot this = (Normal props, this) /\
    plot this' = (Normal props', this') /\
    plot this'' = (Normal props'', this'') /\
    hp props' = hp props ++ [ {| Hp.x := timestamp event; Hp.y := JS.Num 0 |} ] /\
    exists record point,
      _staggerEvents this'' = _staggerEvents this ++ [record] /\
      hp props'' = hp props ++ [point] /\
      Hp.y point = JS.Num 0 /\
      hitPoints record = _lastHp this /\
      (_lastHp this <> JS.Num 0 -> hitPoints record <> Hp.y point).
Proof.
  intros Hty Hz Hg this' this''.
  assert (E : ingest event this = on_toPlayer_damage event this).
  { unfold ingest. destruct Hty as [-> | ->]; reflexivity. }
  assert (G : ingest gain this' = on_addstagger gain this').
  { unfold ingest. now rewrite Hg. }
  subst this''. rewrite G, on_addstagger_run.
  subst this'. rewrite E, on_toPlayer_damage_run. simpl.
  rewrite Hz. simpl.
  split; [reflexivity|].
  do 3 eexists. split; [reflexivity|]. split; [reflexivity|].
  split; [reflexivity|]. simpl.
  rewrite filter_app, map_app. simpl. rewrite Hz. simpl.
  split; [now rewrite Hz|].
  do 2 eexists. split; [reflexivity|]. split; [reflexivity|].
  simpl. rewrite Hz. auto.
Qed.

(** ** Errors *)

(** X1: a handler throws exactly on a stagger removal that has no trigger,
    or that is a purification arriving while [_staggerEvents] is empty; and
    a handler that throws leaves the analyzer as it was. *)
Theorem ingest_throws_exactly_when_rejected
    (event : Event) (this : StaggerPoolGraph) :
  (completed (ingest event this) = false <->
   type event = StaggerRemove /\
   (trigger event = None \/
    (is_purification_removal event = true /\ _staggerEvents this = []))) /\
  (completed (ingest event this) = false ->
   ingest event this = (Throw TypeError, this)).
Proof.
  split.
  - split.
    + destruct (ingest_cases event this) as [[E R] | (this' & E & _)];
        rewrite E; [intros _; exact R | discriminate].
    + intros [Hty [Ht | [Hp He]]]; unfold ingest; rewrite Hty.
      * now rewrite (on_removestagger_no_trigger event this Ht).
      * unfold is_purification_removal in Hp. rewrite Hty in Hp.
        destruct (trigger event) as [t|] eqn:Ht; [|discriminate].
        now rewrite (on_removestagger_purify_empty event t this Ht Hp He).
  - destruct (ingest_cases event this) as [[E R] | (this' & E & _)];
      rewrite E; [reflexivity | discriminate].
Qed.

(** X2: once a stagger record is there, no stream whose removals all have
    a trigger makes a handler throw: the whole stream is handled. *)
Theorem feed_completes_after_first_stagger
    (events : list Event) (this : StaggerPoolGraph) :
  _staggerEvents this <> [] ->
  Forall (fun event => type event = StaggerRemove -> trigger event <> None)
    events ->
  fst (feed events this) = Normal tt /\ processed events this = events.
Proof.
  revert this. induction events as [|event rest IH]; intros this Hne Hall.
  - auto.
  - inversion Hall as [|? ? Ht Hrest]; subst.
    rewrite feed_cons. simpl processed.
    destruct (ingest_cases event this) as [[_ [Hty R]] | (this' & E & H)].
    + exfalso. destruct R as [R | [_ R]]; [now apply (Ht Hty) | now apply Hne].
    + rewrite E. destruct H as [Ks _ _ _ _ _].
      assert (Hne' : _staggerEvents this' <> []).
      { rewrite Ks. intros H0. apply app_eq_nil in H0. now destruct H0. }
      destruct (IH this' Hne' Hrest) as [Hc Hp].
      split; [exact Hc | now rewrite Hp].
Qed.

(** X3: a fresh analyzer handles a whole stream without error when the
    first stagger event of the stream is not a purification and every
    removal has a trigger. *)
Theorem feed_completes_when_pool_opens_first
    (quiet : list Event) (first : Event) (rest : list Event)
    (fight_start : JS.value) :
  Forall (fun event => is_stagger_event event = false) quiet ->
  is_stagger_event first = true ->
  is_purification_removal first = false ->
  Forall (fun event => type event = StaggerRemove -> trigger event <> None)
    (first :: rest) ->
  fst (feed (quiet ++ first :: rest) (initial fight_start)) = Normal tt.
Proof.
  intros Hq Hs Hp Hall.
  rewrite feed_app.
  destruct (feed_without_stagger quiet (initial fight_start) Hq) as (Hc & _).
  destruct (feed quiet (initial fight_start)) as [c mid]. simpl in Hc. subst c.
  inversion Hall as [|? ? Ht Hrest]; subst.
  rewrite feed_cons.
  destruct (ingest_cases first mid) as [[_ [Hty R]] | (this' & E & H)].
  - exfalso. destruct R as [R | [R _]]; [now apply (Ht Hty) | congruence].
  - rewrite E. destruct H as [Ks _ _ _ _ _]. rewrite Hs in Ks.
    apply feed_completes_after_first_stagger; [|exact Hrest].
    rewrite Ks. intros H0. apply app_eq_nil in H0. now destruct H0.
Qed.

(** X4: each handler keeps to its own fields: an event that is no stagger
    event leaves [_staggerEvents] and [_purifyEvents] alone, one that is no
    damage or heal leaves [_hpEvents] and the tracked health alone, one
    that is no death leaves [_deathEvents] alone, and none changes the
    fight's start time. *)
Theorem handlers_keep_to_their_buffers
    (event : Event) (this : StaggerPoolGraph) :
  let this' := state_of (ingest event this) in
  (is_stagger_event event = false ->
   _staggerEvents this' = _staggerEvents this /\
   _purifyEvents this' = _purifyEvents this) /\
  (is_health_event event = false ->
   _hpEvents this' = _hpEvents this /\
   _lastHp this' = _lastHp this /\
   _lastMaxHp this' = _lastMaxHp this) /\
  (is_death_event event = false -> _deathEvents this' = _deathEvents this) /\
  start_time this' = start_time this.
Proof.
  intros this'. subst this'.
  split; [|split; [|split]]; [| | |apply ingest_keeps_start_time];
    destruct (ingest_cases event this) as [[E _] | (this' & E & H)];
    rewrite E; simpl; auto; destruct H as [Ks Kp Kh Kl Km Kd]; intros Hk.
  - rewrite Hk, app_nil_r in Ks. split; [exact Ks|].
    destruct Kp as [(Kb & _) | (_ & Kp)]; [|exact Kp].
    unfold is_purification_removal in Kb. unfold is_stagger_event in Hk.
    destruct (type event); discriminate.
  - rewrite Hk in Kh, Kl, Km. rewrite app_nil_r in Kh. auto.
  - unfold is_death_event in Hk.
    destruct (type event); try discriminate; now rewrite app_nil_r in Kd.
Qed.

(** ** The series of a stream *)

Lemma feed_deaths (events : list Event) (this : StaggerPoolGraph) :
  _deathEvents (state_of (feed events this)) =
  _deathEvents this ++ filter is_death_event (processed events this).
Proof.
  revert this. induction events as [|event rest IH]; intros this.
  - simpl. now rewrite app_nil_r.
  - rewrite feed_cons. simpl processed.
    destruct (ingest_cases event this) as [[E _] | (this' & E & H)]; rewrite E.
    + simpl. now rewrite app_nil_r.
    + rewrite IH. destruct H as [_ _ _ _ _ Kd]. rewrite Kd, <- app_assoc.
      f_equal. simpl. unfold is_death_event.
      destruct (type event); reflexivity.
Qed.

Lemma filter_filter {A : Type} (f g : A -> bool) (l : list A) :
  filter f (filter g l) = filter (fun a => g a && f a) l.
Proof.
  induction l as [|a l IH]; simpl; [reflexivity|].
  destruct (g a); simpl; [destruct (f a)|]; now rewrite IH.
Qed.

(** X5: the death markers plotted after a stream are the death events that
    were handled, one marker each and in the order of the stream, with the
    event's timestamp as [x]. *)
Theorem death_markers_follow_stream
    (events : list Event) (fight_start : JS.value) :
  let this := state_of (feed events (initial fight_start)) in
  exists props,
    plot this = (Normal props, this) /\
    deaths props =
      map (fun event => {| Deaths.x := timestamp event |})
        (filter is_death_event (processed events (initial fight_start))).
Proof.
  intros this. eexists. split; [reflexivity|]. simpl.
  subst this. now rewrite feed_deaths.
Qed.

(** X6: the pool series plotted after a stream has one point per stagger
    event handled, in the order of the stream; a point's [x] and [y] are
    the event's [timestamp] and [newPooledDamage] as they came (so [y] is
    [undefined] where the event has no [newPooledDamage]). *)
Theorem pool_series_follows_stream
    (events : list Event) (fight_start : JS.value) :
  let this := state_of (feed events (initial fight_start)) in
  exists props,
    plot this = (Normal props, this) /\
    Forall2
      (fun point event =>
         Stagger.x point = timestamp event /\
         Stagger.y point = newPooledDamage event)
      (stagger props)
      (filter is_stagger_event (processed events (initial fight_start))) /\
    length (stagger props) =
    length (filter is_stagger_event (processed events (initial fight_start))).
Proof.
  intros this. eexists. split; [reflexivity|]. simpl.
  destruct (feed_buffers events (initial fight_start))
    as (ss & ps & Hs & Fs & _).
  fold this in Hs. rewrite Hs. simpl. clear Hs.
  assert (F : Forall2
                (fun point event =>
                   Stagger.x point = timestamp event /\
                   Stagger.y point = newPooledDamage event)
                (map pool_point ss)
                (filter is_stagger_event (processed events (initial fight_start)))).
  { induction Fs as [|record event ss es (h & m & ->) _ IH]; simpl;
      constructor; auto. }
  split; [exact F|].
  apply (Forall2_length F).
Qed.

(** X7: every damage and heal event handled is kept in [_hpEvents], fields
    or not; the health series plotted after a stream is made of those of
    them whose [hitPoints] is not [undefined], in the order of the stream,
    and the max-health series of those whose [maxHitPoints] is not. *)
Theorem health_series_follow_stream
    (events : list Event) (fight_start : JS.value) :
  let this := state_of (feed events (initial fight_start)) in
  let handled_events := processed events (initial fight_start) in
  exists props,
    plot this = (Normal props, this) /\
    _hpEvents this = filter is_health_event handled_events /\
    hp props =
      map (fun e => {| Hp.x := timestamp e; Hp.y := hitPoints e |})
        (filter (fun e => is_health_event e &&
                          negb (JS.is_undefined (hitPoints e)))
           handled_events) /\
    maxHp props =
      map (fun e => {| Hp.x := timestamp e; Hp.y := maxHitPoints e |})
        (filter (fun e => is_health_event e &&
                          negb (JS.is_undefined (maxHitPoints e)))
           handled_events).
Proof.
  intros this handled_events. eexists. split; [reflexivity|]. simpl.
  destruct (feed_buffers events (initial fight_start))
    as (ss & ps & _ & _ & _ & _ & Hh).
  fold this in Hh. simpl in Hh. fold handled_events in Hh.
  rewrite Hh, !filter_filter.
  split; [reflexivity|].
  split; f_equal; apply filter_ext; intros e;
    now rewrite strict_neq_Undefined.
Qed.

(** ** The tracked health over a stream *)

Lemma feed_keeps_tracked (events : list Event) (this : StaggerPoolGraph) :
  (Forall (keeps_tracked hitPoints) (processed events this) ->
   _lastHp (state_of (feed events this)) = _lastHp this) /\
  (Forall (keeps_tracked maxHitPoints) (processed events this) ->
   _lastMaxHp (state_of (feed events this)) = _lastMaxHp this).
Proof.
  revert this. induction events as [|event rest IH]; intros this.
  - auto.
  - rewrite feed_cons. simpl processed.
    destruct (ingest_cases event this) as [[E _] | (this' & E & H)]; rewrite E.
    + auto.
    + destruct (IH this') as [IHh IHm].
      destruct H as [_ _ _ Kl Km _].
      split; intros Hall; inversion Hall as [|? ? Hk Hrest]; subst;
        unfold keeps_tracked in Hk.
      * rewrite (IHh Hrest), Kl.
        destruct (is_health_event event); [|reflexivity].
        now rewrite (Hk eq_refl).
      * rewrite (IHm Hrest), Km.
        destruct (is_health_event event); [|reflexivity].
        now rewrite (Hk eq_refl).
Qed.

Lemma feed_tracks_latest (before : list Event) :
  forall (events : list Event) (this : StaggerPoolGraph)
         (event : Event) (after : list Event),
    processed events this = before ++ event :: after ->
    is_health_event event = true ->
    (JS.truthy (hitPoints event) = true ->
     Forall (keeps_tracked hitPoints) after ->
     _lastHp (state_of (feed events this)) = hitPoints event) /\
    (JS.truthy (maxHitPoints event) = true ->
     Forall (keeps_tracked maxHitPoints) after ->
     _lastMaxHp (state_of (feed events this)) = maxHitPoints event).
Proof.
  induction before as [|b before IH]; intros events this event after Hp Hk;
    destruct events as [|first rest]; try discriminate;
    simpl in Hp; rewrite feed_cons;
    destruct (ingest_cases first this) as [[E _] | (this' & E & H)];
    rewrite E in *; try discriminate; injection Hp as -> Hp.
  - destruct H as [_ _ _ Kl Km _]. rewrite Hk in Kl, Km. simpl in Kl, Km.
    destruct (feed_keeps_tracked rest this') as [Fh Fm]. rewrite Hp in Fh, Fm.
    split; intros Ht Hall.
    + rewrite (Fh Hall), Kl. now rewrite Ht.
    + rewrite (Fm Hall), Km. now rewrite Ht.
  - now apply (IH rest this' event after).
Qed.

(** X8: after a stream, [_lastHp] is the [hitPoints] of the last damage or
    heal event handled whose [hitPoints] is a number other than zero, and
    the value it had before the stream when there is no such event; the
    same holds of [_lastMaxHp] and [maxHitPoints]. *)
Theorem tracked_health_is_latest_nonzero
    (events : list Event) (this : StaggerPoolGraph) :
  let handled_events := processed events this in
  let final := state_of (feed events this) in
  (Forall (keeps_tracked hitPoints) handled_events ->
   _lastHp final = _lastHp this) /\
  (Forall (keeps_tracked maxHitPoints) handled_events ->
   _lastMaxHp final = _lastMaxHp this) /\
  (forall before event after,
     handled_events = before ++ event :: after ->
     is_health_event event = true ->
     (JS.truthy (hitPoints event) = true ->
      Forall (keeps_tracked hitPoints) after ->
      _lastHp final = hitPoints event) /\
     (JS.truthy (maxHitPoints event) = true ->
      Forall (keeps_tracked maxHitPoints) after ->
      _lastMaxHp final = maxHitPoints event)).
Proof.
  intros handled_events final.
  destruct (feed_keeps_tracked events this) as [Fh Fm].
  split; [exact Fh|]. split; [exact Fm|].
  intros before event after Hp Hk.
  now apply (feed_tracks_latest before events this event after).
Qed.

Lemma truthy_is_number (v : JS.value) :
  JS.truthy v = true -> exists n, n <> 0 /\ v = JS.Num n.
Proof.
  destruct v as [|z|]; simpl; try discriminate.
  destruct (Z.eqb_spec z 0); [discriminate|]. intros _. now exists z.
Qed.

Lemma reachable_numbers (this : StaggerPoolGraph) :
  reachable this ->
  is_number (_lastHp this) /\ is_number (_lastMaxHp this) /\
  Forall (fun record => is_number (hitPoints record) /\
                        is_number (maxHitPoints record))
    (_staggerEvents this).
Proof.
  induction 1 as [fight_start | this event Hr (Ih & Im & Is)].
  - simpl. repeat split; try (now exists 0). constructor.
  - destruct (ingest_cases event this) as [[E _] | (this' & E & H)]; rewrite E;
      simpl; [auto|].
    destruct H as [Ks _ _ Kl Km _]. rewrite Ks, Kl, Km.
    split; [|split].
    + destruct (is_health_event event); [|exact Ih]. simpl.
      destruct (JS.truthy (hitPoints event)) eqn:Ht; [|exact Ih].
      destruct (truthy_is_number _ Ht) as (n & _ & ->). now exists n.
    + destruct (is_health_event event); [|exact Im]. simpl.
      destruct (JS.truthy (maxHitPoints event)) eqn:Ht; [|exact Im].
      destruct (truthy_is_number _ Ht) as (n & _ & ->). now exists n.
    + apply Forall_app. split; [exact Is|].
      destruct (is_stagger_event event); constructor; [|constructor].
      simpl. auto.
Qed.

Lemma feed_stays_nonzero (events : list Event) (this : StaggerPoolGraph) :
  (_lastHp this <> JS.Num 0 ->
   _lastHp (state_of (feed events this)) <> JS.Num 0) /\
  (_lastMaxHp this <> JS.Num 0 ->
   _lastMaxHp (state_of (feed events this)) <> JS.Num 0).
Proof.
  revert this. induction events as [|event rest IH]; intros this.
  - auto.
  - rewrite feed_cons.
    destruct (ingest_cases event this) as [[E _] | (this' & E & H)]; rewrite E.
    + auto.
    + destruct (IH this') as [IHh IHm]. destruct H as [_ _ _ Kl Km _].
      split; intros Hn; [apply IHh; rewrite Kl | apply IHm; rewrite Km];
        destruct (is_health_event event); simpl; auto.
      * destruct (JS.truthy (hitPoints event)) eqn:Ht; [|exact Hn].
        destruct (truthy_is_number _ Ht) as (n & Hz & ->). congruence.
      * destruct (JS.truthy (maxHitPoints event)) eqn:Ht; [|exact Hn].
        destruct (truthy_is_number _ Ht) as (n & Hz & ->). congruence.
Qed.

(** X9: in every state the analyzer can reach, [_lastHp] and [_lastMaxHp]
    are numbers, and so are the [hp] and [maxHp] of every point of the pool
    series, whatever fields the events had; a tracked value that is not 0
    is not 0 after any further events either. *)
Theorem tracked_health_stays_a_number
    (this : StaggerPoolGraph) (events : list Event) :
  reachable this ->
  let final := state_of (feed events this) in
  is_number (_lastHp final) /\
  is_number (_lastMaxHp final) /\
  (_lastHp this <> JS.Num 0 -> _lastHp final <> JS.Num 0) /\
  (_lastMaxHp this <> JS.Num 0 -> _lastMaxHp final <> JS.Num 0) /\
  exists props,
    plot final = (Normal props, final) /\
    Forall (fun point => is_number (Stagger.hp point) /\
                         is_number (Stagger.maxHp point))
      (stagger props).
Proof.
  intros Hr final.
  destruct (reachable_numbers final (feed_reachable events this Hr))
    as (Nh & Nm & Ns).
  destruct (feed_stays_nonzero events this) as [Zh Zm].
  repeat (split; [assumption|]).
  eexists. split; [reflexivity|]. simpl.
  apply Forall_map. exact Ns.
Qed.

(** ** Purify markers and pool points *)

Lemma reachable_purify_count (this : StaggerPoolGraph) :
  reachable this ->
  _purifyEvents this = [] \/
  (length (_purifyEvents this) < length (_staggerEvents this))%nat.
Proof.
  induction 1 as [fight_start | this event Hr IH].
  - now left.
  - destruct (ingest_cases event this) as [[E _] | (this' & E & H)]; rewrite E;
      simpl; [exact IH|].
    destruct H as [Ks Kp _ _ _ _].
    destruct Kp as [(Kb & earlier & previous & He & Kp) | (_ & Kp)];
      rewrite Kp, Ks.
    + right. unfold is_purification_removal in Kb. unfold is_stagger_event.
      destruct (type event); try discriminate.
      rewrite !length_app. simpl.
      destruct IH as [-> | IH]; simpl; [|lia].
      rewrite He, length_app. simpl. lia.
    + destruct IH as [IH | IH]; [now left | right].
      rewrite length_app. lia.
Qed.

(** X10: in every state the analyzer can reach, each purify marker that
    [plot] returns sits at the [x] of a point of the pool series, and there
    are fewer purify markers than pool points as soon as there is one. *)
Theorem purify_markers_sit_on_pool_points (this : StaggerPoolGraph) :
  reachable this ->
  exists props,
    plot this = (Normal props, this) /\
    Forall
      (fun marker =>
         exists point,
           In point (stagger props) /\ Stagger.x point = Purify.x marker)
      (purifies props) /\
    (purifies props <> [] ->
     (length (purifies props) < length (stagger props))%nat).
Proof.
  intros Hr. eexists. split; [reflexivity|]. simpl.
  split.
  - apply Forall_map.
    eapply Forall_impl; [|exact (reachable_purify_references this Hr)].
    intros record (s & Hin & Hts). simpl.
    exists (pool_point s). split; [|now rewrite Hts].
    now apply (in_map pool_point).
  - rewrite !length_map. intros Hne.
    destruct (reachable_purify_count this Hr) as [He | Hlt]; [|exact Hlt].
    rewrite He in Hne. now elim Hne.
Qed.

(** ** The tooltip *)

Lemma within_500_near (v : Stagger.point) (purify : Purify.point) :
  within_500 v purify = true <-> near_in_time v purify.
Proof.
  unfold within_500, near_in_time.
  destruct (Purify.x purify) as [|p|], (Stagger.x v) as [|t|]; simpl;
    split; try discriminate;
    try (intros (t' & p' & Ht & Hp & _); discriminate).
  - intros H. apply Z.ltb_lt in H. now exists t, p.
  - intros (t' & p' & [= <-] & [= <-] & H). now apply Z.ltb_lt.
Qed.

(** X11: the tooltip of a pool point always has the health line; it has a
    second line, 'Purified', exactly when a purify marker lies less than
    500 ms from the point, and that line shows the amount of the first such
    marker of the series.  A point or marker whose [x] is no number is near
    nothing. *)
Theorem tooltip_shows_first_purify_nearby
    (purifies : list Purify.point) (v : Stagger.point) :
  ((forall purify, In purify purifies -> ~ near_in_time v purify) ->
   itemsFormat purifies v = [health_entry v]) /\
  (forall before purify after,
     purifies = before ++ purify :: after ->
     (forall earlier, In earlier before -> ~ near_in_time v earlier) ->
     near_in_time v purify ->
     itemsFormat purifies v = [health_entry v; purified_entry purify]) /\
  (length (itemsFormat purifies v) = 2%nat <->
   exists purify, In purify purifies /\ near_in_time v purify).
Proof.
  unfold itemsFormat. split; [|split].
  - intros Hnone.
    destruct (find (within_500 v) purifies) as [purify|] eqn:F; [|reflexivity].
    apply find_some in F. destruct F as [Hin Hw].
    apply within_500_near in Hw. now elim (Hnone purify Hin).
  - intros before purify after -> Hbefore Hnear.
    assert (F : find (within_500 v) (before ++ purify :: after) = Some purify).
    { induction before as [|b before IH]; simpl.
      - apply within_500_near in Hnear. now rewrite Hnear.
      - destruct (within_500 v b) eqn:Hb.
        + apply within_500_near in Hb. elim (Hbefore b); [now left | exact Hb].
        + apply IH. intros e He. apply Hbefore. now right. }
    now rewrite F.
  - destruct (find (within_500 v) purifies) as [purify|] eqn:F; simpl.
    + split; [intros _ | reflexivity].
      apply find_some in F. destruct F as [Hin Hw].
      exists purify. split; [exact Hin | now apply within_500_near].
    + split; [discriminate|].
      intros (purify & Hin & Hnear). apply within_500_near in Hnear.
      rewrite (find_none _ _ F purify Hin) in Hnear. discriminate.
Qed.

(** X12: after a purification is handled, the tooltip of the pool point
    that was the last one before it (the peak the marker is moved to) has
    the 'Purified' line, provided that point's timestamp is a number. *)
Theorem purified_shown_at_the_peak
    (this : StaggerPoolGraph) (event : Event)
    (earlier : list Event) (previous : Event) (ts : Z) :
  type event = StaggerRemove ->
  carries_purification event ->
  _staggerEvents this = earlier ++ [previous] ->
  timestamp previous = JS.Num ts ->
  let this' := state_of (ingest event this) in
  exists props,
    plot this' = (Normal props, this') /\
    In (pool_point previous) (stagger props) /\
    exists marker,
      In marker (purifies props) /\
      near_in_time (pool_point previous) marker /\
      itemsFormat (purifies props) (pool_point previous) =
        [health_entry (pool_point previous); purified_entry marker].
Proof.
  intros Hty (t & a & Ht & Ha & Hg) He Hts this'.
  assert (Hp : is_purifying_brew t = true).
  { apply (is_purifying_brew_carries event t Ht). now exists t, a. }
  assert (E : ingest event this = on_removestagger event this).
  { unfold ingest. now rewrite Hty. }
  subst this'.
  rewrite E, (on_removestagger_purify event t this earlier previous Ht Hp He).
  eexists. split; [reflexivity|]. simpl.
  split.
  - rewrite He, !map_app. apply in_or_app. left. apply in_or_app. right.
    now left.
  - set (markers := map _ (_purifyEvents this ++ _)).
    assert (Hnew : exists m, In m markers /\ within_500 (pool_point previous) m = true).
    { eexists. split.
      - unfold markers. rewrite map_app. apply in_or_app. right. now left.
      - unfold within_500. simpl. rewrite Hts. simpl.
        now rewrite Z.sub_diag. }
    unfold itemsFormat.
    destruct (find (within_500 (pool_point previous)) markers) as [m|] eqn:F.
    + apply find_some in F. destruct F as [Hin Hw].
      exists m. split; [exact Hin|]. split; [now apply within_500_near|].
      reflexivity.
    + destruct Hnew as (m & Hin & Hw).
      rewrite (find_none _ _ F m Hin) in Hw. discriminate.
Qed.

(** ** The chart's state *)

Lemma interactions_app (before after : list Interaction) (s : GraphState) :
  interactions (before ++ after) s = interactions after (interactions before s).
Proof. apply fold_left_app. Qed.

Lemma interactions_cons (i : Interaction) (rest : list Interaction)
      (s : GraphState) :
  interactions (i :: rest) s = interactions rest (interact i s).
Proof. reflexivity. Qed.

Lemma dragging_kept (during : list Interaction) (s : GraphState) :
  Forall (fun i => is_brush_end i = false) during ->
  dragging s = true ->
  dragging (interactions during s) = true.
Proof.
  revert s. induction during as [|i during IH]; intros s Hall Hd.
  - exact Hd.
  - inversion Hall as [|? ? Hi Hrest]; subst.
    rewrite interactions_cons. apply IH; [exact Hrest|].
    destruct i; simpl in *; auto; discriminate.
Qed.



(** X13: from the start of a brush until its end no crosshair is drawn,
    whatever is hovered or clicked in between. *)
Theorem no_crosshair_while_dragging
    (s : GraphState) (before during : list Interaction) :
  Forall (fun i => is_brush_end i = false) during ->
  crosshair (interactions (before ++ BrushStart :: during) s) = None.
Proof.
  intros Hall. rewrite interactions_app, interactions_cons.
  unfold crosshair. rewrite dragging_kept; [reflexivity | exact Hall | reflexivity].
Qed.



End Analyzer.

(** ** The theorems at work on the scenario *)

Lemma purify_recorded_at_previous_timestamp_scenario :
  let this :=
    state_of (feed example_id [stagger_add_100; damage_150] (initial (JS.Num 0))) in
  let event := purify_200 example_id in
  let previous := spread_hitPoints stagger_add_100 (JS.Num 0) (JS.Num 0) in
  (type event = StaggerRemove /\
   carries_purification example_id event /\
   _staggerEvents this = [] ++ [previous]) /\
  _purifyEvents (state_of (ingest example_id event this)) =
    [spread_previousTimestamp event (JS.Num 100)] /\
  _staggerEvents (state_of (ingest example_id event this)) =
    [previous; spread_hitPoints event (JS.Num 80) (JS.Num 100)].
Proof.
  intros this event previous.
  assert (H1 : type event = StaggerRemove) by reflexivity.
  assert (H2 : carries_purification example_id event)
    by apply purify_200_carries.
  assert (H3 : _staggerEvents this = [] ++ [previous]) by reflexivity.
  split; [auto|].
  destruct (purify_recorded_at_previous_timestamp
              example_id this event [] previous H1 H2 H3)
    as (_ & Hp & Hs & _).
  split; [exact Hp | exact Hs].
Defined.

Lemma purify_needs_recorded_stagger_at_start :
  let this := initial (JS.Num 0) in
  let event := purify_200 example_id in
  (reachable example_id this /\
   type event = StaggerRemove /\
   carries_purification example_id event) /\
  ingest example_id event this = (Throw TypeError, this) /\
  _purifyEvents (state_of (ingest example_id event this)) = [].
Proof.
  intros this event.
  assert (H1 : reachable example_id this) by apply reachable_initial.
  assert (H2 : type event = StaggerRemove) by reflexivity.
  assert (H3 : carries_purification example_id event)
    by apply purify_200_carries.
  split; [auto|].
  destruct (purify_needs_recorded_stagger example_id this event H1 H2 H3)
    as (Hempty & _).
  apply Hempty. reflexivity.
Defined.

Lemma stagger_records_snapshot_in_scenario :
  let this := initial (JS.Num 0) in
  let before := [stagger_add_100; damage_150] in
  let event := purify_200 example_id in
  let mid := state_of (feed example_id before this) in
  (is_stagger_event event = true /\
   completed (feed example_id (before ++ [event]) this) = true) /\
  exists record later,
    _staggerEvents (state_of (feed example_id (scenario example_id) this)) =
      _staggerEvents mid ++ record :: later /\
    record = spread_hitPoints event (JS.Num 80) (JS.Num 100) /\
    hitPoints record = JS.Num 80 /\
    maxHitPoints record = JS.Num 100 /\
    timestamp record = JS.Num 200 /\
    newPooledDamage record = JS.Num 5.
Proof.
  intros this before event mid.
  assert (H1 : is_stagger_event event = true) by reflexivity.
  assert (H2 : completed (feed example_id (before ++ [event]) this) = true)
    by reflexivity.
  split; [auto|].
  destruct (stagger_records_snapshot_in_stream_order
              example_id (scenario example_id) this) as (_ & H).
  exact (H before event [death_250] eq_refl H1 H2).
Defined.

Lemma last_health_follows_truthy_fields_scenario :
  let this := initial (JS.Num 0) in
  let event := damage_150 in
  (type event = Damage \/ type event = Heal) /\
  _lastHp (state_of (ingest example_id event this)) = JS.Num 80 /\
  _lastMaxHp (state_of (ingest example_id event this)) = JS.Num 100.
Proof.
  intros this event.
  assert (H : type event = Damage \/ type event = Heal) by (left; reflexivity).
  split; [exact H|].
  destruct (last_health_follows_truthy_fields example_id this event H)
    as (_ & (Hhp & _) & (Hmax & _)).
  split.
  - apply (Hhp 80); [discriminate | reflexivity].
  - apply (Hmax 100); [discriminate | reflexivity].
Defined.

(** C6 as stated fails on a purification that is the first stagger event of
    the stream: its trigger carries the purification ability, and yet the
    handler throws and pushes neither a stagger record nor a purify
    record. *)
Lemma first_purification_is_rejected :
  let this := initial (JS.Num 0) in
  let event := purify_200 example_id in
  type event = StaggerRemove /\
  carries_purification example_id event /\
  ingest example_id event this = (Throw TypeError, this) /\
  _staggerEvents (state_of (ingest example_id event this)) = [] /\
  _purifyEvents (state_of (ingest example_id event this)) = [].
Proof.
  intros this event.
  split; [reflexivity|]. split; [apply purify_200_carries|].
  repeat split.
Qed.

Lemma removal_recorded_purify_by_ability_scenario :
  let this :=
    state_of (feed example_id [stagger_add_100; damage_150] (initial (JS.Num 0))) in
  let event := purify_200 example_id in
  (type event = StaggerRemove /\
   trigger event =
     Some {| ability := Some {| guid := JS.Num example_id |} |} /\
   (carries_purification example_id event -> _staggerEvents this <> [])) /\
  fst (ingest example_id event this) = Normal tt /\
  exists record,
    _purifyEvents (state_of (ingest example_id event this)) =
    _purifyEvents this ++ [record].
Proof.
  intros this event.
  assert (H1 : type event = StaggerRemove) by reflexivity.
  assert (H2 : trigger event =
               Some {| ability := Some {| guid := JS.Num example_id |} |})
    by reflexivity.
  assert (H3 : carries_purification example_id event -> _staggerEvents this <> [])
    by (intros _; discriminate).
  split; [auto|].
  destruct (removal_recorded_purify_by_ability example_id this event _ H1 H2 H3)
    as (Hc & _ & Hiff & _).
  split; [exact Hc|].
  apply Hiff. apply purify_200_carries.
Defined.

Lemma no_stagger_events_no_pool_series_example :
  let events := [damage_150; bare Heal 180; death_250; bare Other 260] in
  Forall (fun event => type event <> StaggerAdd /\ type event <> StaggerRemove)
    events /\
  fst (feed example_id events (initial (JS.Num 0))) = Normal tt.
Proof.
  intros events.
  assert (H : Forall (fun event => type event <> StaggerAdd /\
                                   type event <> StaggerRemove) events).
  { repeat constructor; discriminate. }
  split; [exact H|].
  destruct (no_stagger_events_no_pool_series example_id events (JS.Num 0) H)
    as (Hc & _).
  exact Hc.
Defined.

Lemma zero_health_plotted_not_tracked_example :
  let this := state_of (ingest example_id damage_150 (initial (JS.Num 0))) in
  let event := damage_160_zero in
  let gain := bare StaggerAdd 170 in
  (type event = Damage \/ type event = Heal) /\
  hitPoints event = JS.Num 0 /\
  type gain = StaggerAdd /\
  _lastHp (state_of (ingest example_id event this)) = JS.Num 80.
Proof.
  intros this event gain.
  assert (H1 : type event = Damage \/ type event = Heal) by (left; reflexivity).
  assert (H2 : hitPoints event = JS.Num 0) by reflexivity.
  assert (H3 : type gain = StaggerAdd) by reflexivity.
  split; [exact H1|]. split; [exact H2|]. split; [exact H3|].
  destruct (zero_health_plotted_not_tracked example_id this event gain H1 H2 H3)
    as (Hl & _).
  exact Hl.
Defined.

(** ** The further theorems at work *)

Lemma feed_completes_after_first_stagger_example :
  let this := state_of (ingest example_id stagger_add_100 (initial (JS.Num 0))) in
  let events := [purify_200 example_id; damage_150; purify_200 example_id] in
  _staggerEvents this <> [] /\
  Forall (fun event => type event = StaggerRemove -> trigger event <> None)
    events /\
  fst (feed example_id events this) = Normal tt.
Proof.
  intros this events.
  assert (H1 : _staggerEvents this <> []) by (vm_compute; discriminate).
  assert (H2 : Forall (fun event => type event = StaggerRemove ->
                                    trigger event <> None) events).
  { repeat constructor; intros H; first [discriminate H | discriminate]. }
  split; [exact H1|]. split; [exact H2|].
  destruct (feed_completes_after_first_stagger example_id events this H1 H2)
    as [Hc _].
  exact Hc.
Defined.

Lemma feed_completes_when_pool_opens_first_example :
  let quiet := [damage_150] in
  let rest := [purify_200 example_id; death_250] in
  (Forall (fun event => is_stagger_event event = false) quiet /\
   is_stagger_event stagger_add_100 = true /\
   is_purification_removal example_id stagger_add_100 = false /\
   Forall (fun event => type event = StaggerRemove -> trigger event <> None)
     (stagger_add_100 :: rest)) /\
  fst (feed example_id (quiet ++ stagger_add_100 :: rest) (initial (JS.Num 0))) =
    Normal tt.
Proof.
  intros quiet rest.
  assert (H1 : Forall (fun event => is_stagger_event event = false) quiet)
    by (repeat constructor).
  assert (H2 : is_stagger_event stagger_add_100 = true) by reflexivity.
  assert (H3 : is_purification_removal example_id stagger_add_100 = false)
    by reflexivity.
  assert (H4 : Forall (fun event => type event = StaggerRemove ->
                                    trigger event <> None)
                 (stagger_add_100 :: rest)).
  { repeat constructor; intros H; first [discriminate H | discriminate]. }
  split; [auto|].
  exact (feed_completes_when_pool_opens_first
           example_id quiet stagger_add_100 rest (JS.Num 0) H1 H2 H3 H4).
Defined.

Lemma tracked_health_stays_a_number_scenario :
  let this := initial (JS.Num 0) in
  reachable example_id this /\
  is_number (_lastHp (state_of (feed example_id (scenario example_id) this))).
Proof.
  intros this.
  assert (H : reachable example_id this) by apply reachable_initial.
  split; [exact H|].
  destruct (tracked_health_stays_a_number
              example_id this (scenario example_id) H) as (Hn & _).
  exact Hn.
Defined.

Lemma purify_markers_sit_on_pool_points_scenario :
  let this := state_of (feed example_id (scenario example_id) (initial (JS.Num 0))) in
  reachable example_id this /\
  exists props,
    plot this = (Normal props, this) /\
    Forall
      (fun marker =>
         exists point,
           In point (stagger props) /\ Stagger.x point = Purify.x marker)
      (purifies props).
Proof.
  intros this.
  assert (H : reachable example_id this).
  { apply feed_reachable, reachable_initial. }
  split; [exact H|].
  destruct (purify_markers_sit_on_pool_points example_id this H)
    as (props & Hplot & Hon & _).
  exists props. split; [exact Hplot | exact Hon].
Defined.

Lemma purified_shown_at_the_peak_scenario :
  let this :=
    state_of (feed example_id [stagger_add_100; damage_150] (initial (JS.Num 0))) in
  let event := purify_200 example_id in
  let previous := spread_hitPoints stagger_add_100 (JS.Num 0) (JS.Num 0) in
  (type event = StaggerRemove /\
   carries_purification example_id event /\
   _staggerEvents this = [] ++ [previous] /\
   timestamp previous = JS.Num 100) /\
  exists props,
    plot (state_of (ingest example_id event this)) =
      (Normal props, state_of (ingest example_id event this)) /\
    length (itemsFormat example_format (purifies props) (pool_point previous)) =
      2%nat.
Proof.
  intros this event previous.
  assert (H1 : type event = StaggerRemove) by reflexivity.
  assert (H2 : carries_purification example_id event)
    by apply purify_200_carries.
  assert (H3 : _staggerEvents this = [] ++ [previous]) by reflexivity.
  assert (H4 : timestamp previous = JS.Num 100) by reflexivity.
  split; [auto|].
  destruct (purified_shown_at_the_peak
              example_id example_format this event [] previous 100 H1 H2 H3 H4)
    as (props & Hplot & _ & marker & _ & _ & Hitems).
  exists props. split; [exact Hplot|].
  rewrite Hitems. reflexivity.
Defined.

Lemma no_crosshair_while_dragging_example :
  let point :=
    {| Stagger.x := JS.Num 100; Stagger.y := JS.Num 5;
       Stagger.hp := JS.Num 80; Stagger.maxHp := JS.Num 100 |} in
  let marker :=
    {| Purify.x := JS.Num 100; Purify.y := JS.Num 20;
       Purify.amount := JS.Num 15 |} in
  let during := [NearestX point; ValueClick marker] in
  Forall (fun i => is_brush_end i = false) during /\
  crosshair (interactions ([NearestX point] ++ BrushStart :: during) graph_initial) =
    None.
Proof.
  intros point marker during.
  assert (H : Forall (fun i => is_brush_end i = false) during)
    by (repeat constructor).
  split; [exact H|].
  exact (no_crosshair_while_dragging graph_initial [NearestX point] during H).
Defined.



Lemma ingest_throws_exactly_when_rejected_example :
  let event := bare StaggerRemove 300 in
  let this := state_of (feed example_id (scenario example_id) (initial (JS.Num 0))) in
  (type event = StaggerRemove /\ trigger event = None) /\
  ingest example_id event this = (Throw TypeError, this).
Proof.
  intros event this.
  assert (H1 : type event = StaggerRemove) by reflexivity.
  assert (H2 : trigger event = None) by reflexivity.
  split; [auto|].
  destruct (ingest_throws_exactly_when_rejected example_id event this)
    as [[_ Hthrows] Hsame].
  apply Hsame, Hthrows. auto.
Defined.

Lemma handlers_keep_to_their_buffers_example :
  let this := state_of (feed example_id (scenario example_id) (initial (JS.Num 0))) in
  is_health_event death_250 = false /\
  _lastHp (state_of (ingest example_id death_250 this)) = _lastHp this.
Proof.
  intros this.
  assert (H : is_health_event death_250 = false) by reflexivity.
  split; [exact H|].
  destruct (handlers_keep_to_their_buffers example_id death_250 this)
    as (_ & Hhealth & _).
  destruct (Hhealth H) as (_ & Hlast & _).
  exact Hlast.
Defined.

Lemma tracked_health_is_latest_nonzero_example :
  let events :=
    [stagger_add_100; damage_150; damage_160_zero; purify_200 example_id] in
  let this := initial (JS.Num 0) in
  (processed example_id events this =
     [stagger_add_100] ++ damage_150 :: [damage_160_zero; purify_200 example_id] /\
   is_health_event damage_150 = true /\
   JS.truthy (hitPoints damage_150) = true /\
   Forall (keeps_tracked hitPoints) [damage_160_zero; purify_200 example_id]) /\
  _lastHp (state_of (feed example_id events this)) = JS.Num 80.
Proof.
  intros events this.
  assert (H1 : processed example_id events this =
               [stagger_add_100] ++
                 damage_150 :: [damage_160_zero; purify_200 example_id])
    by reflexivity.
  assert (H2 : is_health_event damage_150 = true) by reflexivity.
  assert (H3 : JS.truthy (hitPoints damage_150) = true) by reflexivity.
  assert (H4 : Forall (keeps_tracked hitPoints)
                 [damage_160_zero; purify_200 example_id]).
  { repeat constructor; intros H; first [reflexivity | discriminate H]. }
  split; [auto|].
  destruct (tracked_health_is_latest_nonzero example_id events this)
    as (_ & _ & Hlatest).
  destruct (Hlatest [stagger_add_100] damage_150
              [damage_160_zero; purify_200 example_id] H1 H2) as [Hhp _].
  exact (Hhp H3 H4).
Defined.

Lemma tooltip_shows_first_purify_nearby_example :
  let point :=
    {| Stagger.x := JS.Num 1000; Stagger.y := JS.Num 40;
       Stagger.hp := JS.Num 80; Stagger.maxHp := JS.Num 100 |} in
  let far :=
    {| Purify.x := JS.Num 500; Purify.y := JS.Num 20;
       Purify.amount := JS.Num 15 |} in
  let near :=
    {| Purify.x := JS.Num 1499; Purify.y := JS.Num 40;
       Purify.amount := JS.Num 30 |} in
  ((forall earlier, In earlier [far] -> ~ near_in_time point earlier) /\
   near_in_time point near) /\
  itemsFormat example_format [far; near] point =
    [health_entry example_format point; purified_entry example_format near].
Proof.
  intros point far near.
  assert (H1 : forall earlier, In earlier [far] -> ~ near_in_time point earlier).
  { intros earlier [<- | []] (t & p & [= <-] & [= <-] & H). simpl in H. lia. }
  assert (H2 : near_in_time point near).
  { exists 1000, 1499. repeat split. }
  split; [auto|].
  destruct (tooltip_shows_first_purify_nearby example_format [far; near] point)
    as (_ & Hfirst & _).
  exact (Hfirst [far] near [] eq_refl H1 H2).
Defined.

Lemma purify_marker_adds_amount_back_scenario :
  let this := state_of (feed example_id (scenario example_id) (initial (JS.Num 0))) in
  (newPooledDamage (purify_200 example_id) = JS.Num 5 /\
   amount (purify_200 example_id) = JS.Num 15 /\
   JS.exact 5 /\ JS.exact 15 /\ JS.exact (5 + 15)) /\
  exists props,
    plot this = (Normal props, this) /\
    Forall2
      (fun marker removal =>
         Purify.y marker = JS.Num 20 /\
         JS.sub (Purify.y marker) (Purify.amount marker) =
         newPooledDamage removal)
      (purifies props) [purify_200 example_id].
Proof.
  intros this.
  assert (E5 : JS.exact 5) by (unfold JS.exact; vm_compute; discriminate).
  assert (E15 : JS.exact 15) by (unfold JS.exact; vm_compute; discriminate).
  assert (E20 : JS.exact (5 + 15)) by (unfold JS.exact; vm_compute; discriminate).
  split; [repeat split; assumption|].
  destruct (purify_marker_adds_amount_back
              example_id (scenario example_id) (JS.Num 0))
    as (props & Hplot & _ & F).
  exists props. split; [exact Hplot|].
  assert (L : filter (is_purification_removal example_id)
                (processed example_id (scenario example_id) (initial (JS.Num 0))) =
              [purify_200 example_id]) by reflexivity.
  rewrite L in F.
  inversion F as [|marker removal markers removals (Hy & _ & Hround) Hrest Hm Hr].
  inversion Hrest.
  constructor; [|constructor].
  split; [exact Hy|].
  exact (Hround 5 15 eq_refl eq_refl E5 E15 E20).
Defined.
